(** * ai_chat: the query-handling pipeline

    A shallow embedding of the support-query pipeline of the repository
    (src/rag.js, src/services/documentService.js,
    src/services/classificationService.js, src/services/responseService.js)
    and the properties its specification states about it.

    JavaScript strings are sequences of UTF-16 code units, numbers are
    binary64 floats, objects are property lists in property order
    (array indices first, then the other keys as created).  The vector
    store and the language model are external services: they are taken
    as functions that either return or throw, and what they throw may be
    any value, undefined and null included.  The server's endpoint is
    modelled with its JSON body parser and the JSON serialization of its
    answers, the chat component with the rendering of its entries. *)

From Stdlib Require Import List Bool Arith NArith ZArith Lia String Ascii.
From Stdlib Require Import Floats.SpecFloat.
From Stdlib Require Import DecimalString.
Import ListNotations.

Local Open Scope N_scope.
Local Open Scope list_scope.

(** ** Strings *)

Module JsString.

(** A UTF-16 code unit. *)
Definition char16 := N.

Definition jsstring := list char16.

(** An ASCII literal of the source, as code units. *)
Definition lit (s : string) : jsstring :=
  map N_of_ascii (list_ascii_of_string s).

(** A literal of the source that contains double quotes, written here
    with an apostrophe for each double quote (code unit 34). *)
Definition litq (s : string) : jsstring :=
  map (fun c => if c =? 39 then 34 else c) (lit s).

Arguments lit s%_string.
Arguments litq s%_string.

Fixpoint eqb (s t : jsstring) : bool :=
  match s, t with
  | [], [] => true
  | c :: s', d :: t' => (c =? d) && eqb s' t'
  | _, _ => false
  end.

(** ECMAScript WhiteSpace and LineTerminator code points: what [trim]
    strips and what the regular-expression class \s matches. *)
Definition isWhiteSpace (c : char16) : bool :=
  (c =? 9) || (c =? 10) || (c =? 11) || (c =? 12) || (c =? 13) ||
  (c =? 32) || (c =? 160) || (c =? 5760) ||
  ((8192 <=? c) && (c <=? 8202)) ||
  (c =? 8232) || (c =? 8233) || (c =? 8239) || (c =? 8287) ||
  (c =? 12288) || (c =? 65279).

Fixpoint dropWhile (p : char16 -> bool) (s : jsstring) : jsstring :=
  match s with
  | [] => []
  | c :: s' => if p c then dropWhile p s' else s
  end.

Fixpoint takeWhile (p : char16 -> bool) (s : jsstring) : jsstring :=
  match s with
  | [] => []
  | c :: s' => if p c then c :: takeWhile p s' else []
  end.

(** [startsWith p s] is the rest of [s] after the prefix [p]. *)
Fixpoint startsWith (p s : jsstring) : option jsstring :=
  match p, s with
  | [], _ => Some s
  | a :: p', c :: s' => if a =? c then startsWith p' s' else None
  | _ :: _, [] => None
  end.

Definition trimStart (s : jsstring) : jsstring := dropWhile isWhiteSpace s.

Definition trimEnd (s : jsstring) : jsstring :=
  rev (dropWhile isWhiteSpace (rev s)).

(** String.prototype.trim *)
Definition trim (s : jsstring) : jsstring := trimEnd (trimStart s).

(** *** toUpperCase

    String.prototype.toUpperCase maps each code point of the string
    through the Unicode upper-case mapping (one code point may become
    several) and encodes the result again.  On ASCII the mapping is
    written out; above ASCII it is the table of the runtime's Unicode
    version, a parameter [upperTable] of everything that upper-cases. *)

Definition isHighSurrogate (c : char16) : bool := (55296 <=? c) && (c <=? 56319).
Definition isLowSurrogate (c : char16) : bool := (56320 <=? c) && (c <=? 57343).

Fixpoint codePoints (s : jsstring) : list N :=
  match s with
  | [] => []
  | hi :: t =>
      match t with
      | lo :: s' =>
          if isHighSurrogate hi && isLowSurrogate lo
          then (65536 + (hi - 55296) * 1024 + (lo - 56320)) :: codePoints s'
          else hi :: codePoints t
      | [] => [hi]
      end
  end.

Definition encodeCodePoint (cp : N) : jsstring :=
  if cp <? 65536 then [cp]
  else [55296 + (cp - 65536) / 1024; 56320 + (cp - 65536) mod 1024].

Definition upperCodePoint (upperTable : N -> list N) (cp : N) : list N :=
  if cp <? 128
  then (if (97 <=? cp) && (cp <=? 122) then [cp - 32] else [cp])
  else upperTable cp.

Definition toUpperCase (upperTable : N -> list N) (s : jsstring) : jsstring :=
  flat_map (fun cp => flat_map encodeCodePoint (upperCodePoint upperTable cp))
           (codePoints s).

(** *** Global regular-expression replacement

    [s.replace(/re/g, repl)]: the string is scanned from the left; where
    the expression matches at the current position the match is replaced
    and scanning resumes after it, elsewhere the code unit is copied.
    [m t] is the length of the match of the expression at the head of
    [t], if there is one.  [skip] counts the code units of the current
    match that are still to be passed over. *)
Fixpoint replaceFrom (m : jsstring -> option nat) (repl : jsstring)
         (skip : nat) (s : jsstring) : jsstring :=
  match skip with
  | S k =>
      match s with
      | [] => []
      | _ :: s' => replaceFrom m repl k s'
      end
  | O =>
      match s with
      | [] => match m [] with Some _ => repl | None => [] end
      | c :: s' =>
          match m s with
          | Some (S k) => repl ++ replaceFrom m repl k s'
          | Some O => repl ++ c :: replaceFrom m repl O s'
          | None => c :: replaceFrom m repl O s'
          end
      end
  end.

Definition replaceAll (m : jsstring -> option nat) (repl s : jsstring) : jsstring :=
  replaceFrom m repl O s.

(** A character class [[...]]: one code unit satisfying [p]. *)
Definition matchClass (p : char16 -> bool) (s : jsstring) : option nat :=
  match s with
  | c :: _ => if p c then Some 1%nat else None
  | [] => None
  end.

(** [\s+] *)
Definition matchSpaces (s : jsstring) : option nat :=
  match takeWhile isWhiteSpace s with
  | [] => None
  | w => Some (List.length w)
  end.

End JsString.

(** ** Numbers *)

Module JsNumber.

(** A JavaScript number: an IEEE 754 binary64 value. *)
Definition number := spec_float.

Definition prec : Z := 53.
Definition emax : Z := 1024.

(** The number denoted by the decimal [(-1)^neg * m * 10^e], rounded to
    the nearest binary64 value, ties to even: what a decimal literal of
    the source, or of a JSON text, evaluates to. *)
Definition ofDecimal (neg : bool) (m : N) (e : Z) : number :=
  match m with
  | N0 => S754_zero neg
  | Npos p =>
      match e with
      | Zneg k =>
          let '(q, e', l) :=
            SFdiv_core_binary prec emax (Zpos p) 0 (Z.pow 10 (Zpos k)) 0 in
          binary_round_aux prec emax neg q e' l
      | _ => binary_round prec emax neg (Z.to_pos (Zpos p * Z.pow 10 e)) 0
      end
  end.

Definition zero : number := S754_zero false.
Definition one : number := Eval vm_compute in ofDecimal false 1 0.

Definition leb (x y : number) : bool := SFleb x y.

(** [0 <= x && x <= 1] *)
Definition inUnitInterval (x : number) : bool := leb zero x && leb x one.

(** ToBoolean on a number: zero (of either sign) and NaN are falsy. *)
Definition toBoolean (x : number) : bool :=
  match x with
  | S754_zero _ | S754_nan => false
  | _ => true
  end.

End JsNumber.

(** ** JSON values and JSON.parse *)

Module Json.
Import JsString JsNumber.

(** The values of the language that the code handles: those
    [JSON.parse] produces, the object and array literals the handlers
    return, and [undefined], which [JSON.parse] never produces but a
    property of an object literal may hold. *)
#[warnings="-register-all"] Inductive value : Type :=
  | JNull
  | JBool (b : bool)
  | JNum (x : number)
  | JStr (s : jsstring)
  | JArr (items : list value)
  | JObj (props : list (jsstring * value))
  | JUndefined.

(** Own property lookup in a property list. *)
Fixpoint lookup (k : jsstring) (props : list (jsstring * value)) : option value :=
  match props with
  | [] => None
  | (k', v) :: rest => if eqb k k' then Some v else lookup k rest
  end.

(** An array index: the canonical decimal numeral of an integer below
    2^32 - 1.  Such keys come first among the properties of an object,
    in ascending order; the other keys follow in the order they were
    created. *)
Definition arrayIndex (k : jsstring) : option N :=
  match k with
  | [] => None
  | d :: ds =>
      if forallb (fun c => (48 <=? c) && (c <=? 57)) k &&
         (negb (d =? 48) || match ds with [] => true | _ :: _ => false end)
      then
        let n := fold_left (fun acc c => acc * 10 + (c - 48)) k 0 in
        if n <? 4294967295 then Some n else None
      else None
  end.

(** A new or repeated key that is no array index: a repeated key keeps
    its place and takes the new value, a new one goes to the end. *)
Fixpoint defineName (k : jsstring) (v : value) (props : list (jsstring * value))
  : list (jsstring * value) :=
  match props with
  | [] => [(k, v)]
  | (k', v') :: rest =>
      if eqb k k' then (k', v) :: rest else (k', v') :: defineName k v rest
  end.

(** A new or repeated array index [n], written [k]. *)
Fixpoint defineIndex (n : N) (k : jsstring) (v : value)
         (props : list (jsstring * value)) : list (jsstring * value) :=
  match props with
  | [] => [(k, v)]
  | (k', v') :: rest =>
      match arrayIndex k' with
      | Some n' =>
          if n =? n' then (k', v) :: rest
          else if n <? n' then (k, v) :: props
          else (k', v') :: defineIndex n k v rest
      | None => (k, v) :: props
      end
  end.

(** CreateDataProperty on an object under construction. *)
Definition define (k : jsstring) (v : value) (props : list (jsstring * value))
  : list (jsstring * value) :=
  match props with
  | [] => [(k, v)]
  | _ :: _ =>
      match arrayIndex k with
      | Some n => defineIndex n k v props
      | None => defineName k v props
      end
  end.

Definition objectOf (members : list (jsstring * value)) : value :=
  JObj (fold_left (fun props kv => define (fst kv) (snd kv) props) members []).

(** ToBoolean *)
Definition truthy (v : value) : bool :=
  match v with
  | JNull => false
  | JBool b => b
  | JNum x => toBoolean x
  | JStr s => match s with [] => false | _ => true end
  | JArr _ | JObj _ => true
  | JUndefined => false
  end.

(** *** The JSON grammar (ECMA-404), as JSON.parse reads it *)

(** JSON white space: tab, line feed, carriage return, space. *)
Definition isJsonSpace (c : char16) : bool :=
  (c =? 9) || (c =? 10) || (c =? 13) || (c =? 32).

Definition skipSpace (s : jsstring) : jsstring := dropWhile isJsonSpace s.

Definition isDigit (c : char16) : bool := (48 <=? c) && (c <=? 57).

Definition hexDigit (c : char16) : option N :=
  if isDigit c then Some (c - 48)
  else if (97 <=? c) && (c <=? 102) then Some (c - 87)
  else if (65 <=? c) && (c <=? 70) then Some (c - 55)
  else None.

Definition hex4 (a b c d : char16) : option char16 :=
  match hexDigit a, hexDigit b, hexDigit c, hexDigit d with
  | Some x, Some y, Some z, Some w => Some (((x * 16 + y) * 16 + z) * 16 + w)
  | _, _, _, _ => None
  end.

(** The character a two-character escape stands for. *)
Definition simpleEscape (c : char16) : option char16 :=
  if c =? 34 then Some 34          (* quotation mark *)
  else if c =? 92 then Some 92     (* reverse solidus *)
  else if c =? 47 then Some 47     (* solidus *)
  else if c =? 98 then Some 8      (* b: backspace *)
  else if c =? 102 then Some 12    (* f: form feed *)
  else if c =? 110 then Some 10    (* n: line feed *)
  else if c =? 114 then Some 13    (* r: carriage return *)
  else if c =? 116 then Some 9     (* t: tab *)
  else None.

(** The characters of a string after its opening quote, up to and
    including the closing quote; the decoded string and what follows. *)
Fixpoint stringChars (s : jsstring) : option (jsstring * jsstring) :=
  match s with
  | [] => None
  | c :: s1 =>
      if c =? 34 then Some ([], s1)
      else if c =? 92 then
        match s1 with
        | [] => None
        | e :: s2 =>
            if e =? 117 then
              match s2 with
              | a :: b :: c' :: d :: s3 =>
                  match hex4 a b c' d, stringChars s3 with
                  | Some u, Some (str, rest) => Some (u :: str, rest)
                  | _, _ => None
                  end
              | _ => None
              end
            else
              match simpleEscape e, stringChars s2 with
              | Some u, Some (str, rest) => Some (u :: str, rest)
              | _, _ => None
              end
        end
      else if c <? 32 then None
      else
        match stringChars s1 with
        | Some (str, rest) => Some (c :: str, rest)
        | None => None
        end
  end.

(** The value of a run of decimal digits. *)
Definition digitsValue (ds : jsstring) : N :=
  fold_left (fun acc d => acc * 10 + (d - 48)) ds 0.

(** The integer part: a single 0, or a digit 1-9 and further digits. *)
Definition intPart (s : jsstring) : option (jsstring * jsstring) :=
  match s with
  | c :: s' =>
      if c =? 48 then Some ([c], s')
      else if isDigit c then Some (takeWhile isDigit s, dropWhile isDigit s)
      else None
  | [] => None
  end.

(** An optional fraction: a point and at least one digit. *)
Definition fracPart (s : jsstring) : option (jsstring * jsstring) :=
  match s with
  | c :: s' =>
      if c =? 46 then
        match takeWhile isDigit s' with
        | [] => None
        | ds => Some (ds, dropWhile isDigit s')
        end
      else Some ([], s)
  | [] => Some ([], s)
  end.

(** An optional exponent: e or E, an optional sign, at least one digit. *)
Definition expPart (s : jsstring) : option (Z * jsstring) :=
  match s with
  | c :: s' =>
      if (c =? 101) || (c =? 69) then
        let '(neg, s'') :=
          match s' with
          | sg :: t => if sg =? 45 then (true, t)
                       else if sg =? 43 then (false, t) else (false, s')
          | [] => (false, s')
          end in
        match takeWhile isDigit s'' with
        | [] => None
        | ds =>
            let n := Z.of_N (digitsValue ds) in
            Some (if neg then Z.opp n else n, dropWhile isDigit s'')
        end
      else Some (0%Z, s)
  | [] => Some (0%Z, s)
  end.

Definition parseNumber (s : jsstring) : option (number * jsstring) :=
  let '(neg, s0) :=
    match s with
    | c :: t => if c =? 45 then (true, t) else (false, s)
    | [] => (false, s)
    end in
  match intPart s0 with
  | None => None
  | Some (ip, s1) =>
      match fracPart s1 with
      | None => None
      | Some (fp, s2) =>
          match expPart s2 with
          | None => None
          | Some (ex, s3) =>
              Some (ofDecimal neg (digitsValue (ip ++ fp))
                              (ex - Z.of_nat (List.length fp)), s3)
          end
      end
  end.

(** The outcome of parsing a prefix of the text. *)
Inductive parsed (A : Type) : Type :=
  | Parsed (a : A) (rest : jsstring)
  | SyntaxError
  | OutOfFuel.
Arguments Parsed {A} a rest.
Arguments SyntaxError {A}.
Arguments OutOfFuel {A}.

(** Recursive descent.  [parseValue] expects the text to start at the
    value; [parseElements] reads the elements of an array after its
    opening bracket (the array is known not to be empty),
    [parseMembers] the members of a non-empty object.  [fuel] bounds the
    number of nested calls; [JSON_parse] below gives enough. *)
Fixpoint parseValue (fuel : nat) (s : jsstring) : parsed value :=
  match fuel with
  | O => OutOfFuel
  | S fuel' =>
      match s with
      | [] => SyntaxError
      | c :: s' =>
          if c =? 123 then                       (* { *)
            match skipSpace s' with
            | d :: r =>
                if d =? 125 then Parsed (objectOf []) r
                else
                  match parseMembers fuel' (d :: r) with
                  | Parsed ms rest => Parsed (objectOf ms) rest
                  | SyntaxError => SyntaxError
                  | OutOfFuel => OutOfFuel
                  end
            | [] => SyntaxError
            end
          else if c =? 91 then                   (* [ *)
            match skipSpace s' with
            | d :: r =>
                if d =? 93 then Parsed (JArr []) r
                else
                  match parseElements fuel' (d :: r) with
                  | Parsed vs rest => Parsed (JArr vs) rest
                  | SyntaxError => SyntaxError
                  | OutOfFuel => OutOfFuel
                  end
            | [] => SyntaxError
            end
          else if c =? 34 then                   (* string *)
            match stringChars s' with
            | Some (str, rest) => Parsed (JStr str) rest
            | None => SyntaxError
            end
          else if (c =? 45) || isDigit c then
            match parseNumber s with
            | Some (x, rest) => Parsed (JNum x) rest
            | None => SyntaxError
            end
          else
            match startsWith (lit "true") s with
            | Some rest => Parsed (JBool true) rest
            | None =>
                match startsWith (lit "false") s with
                | Some rest => Parsed (JBool false) rest
                | None =>
                    match startsWith (lit "null") s with
                    | Some rest => Parsed JNull rest
                    | None => SyntaxError
                    end
                end
            end
      end
  end

with parseElements (fuel : nat) (s : jsstring) : parsed (list value) :=
  match fuel with
  | O => OutOfFuel
  | S fuel' =>
      match parseValue fuel' s with
      | Parsed v r =>
          match skipSpace r with
          | d :: r' =>
              if d =? 44 then                    (* , *)
                match parseElements fuel' (skipSpace r') with
                | Parsed vs rest => Parsed (v :: vs) rest
                | SyntaxError => SyntaxError
                | OutOfFuel => OutOfFuel
                end
              else if d =? 93 then Parsed [v] r' (* ] *)
              else SyntaxError
          | [] => SyntaxError
          end
      | SyntaxError => SyntaxError
      | OutOfFuel => OutOfFuel
      end
  end

with parseMembers (fuel : nat) (s : jsstring) : parsed (list (jsstring * value)) :=
  match fuel with
  | O => OutOfFuel
  | S fuel' =>
      match s with
      | q :: s' =>
          if q =? 34 then
            match stringChars s' with
            | Some (key, r0) =>
                match skipSpace r0 with
                | col :: r1 =>
                    if col =? 58 then            (* : *)
                      match parseValue fuel' (skipSpace r1) with
                      | Parsed v r =>
                          match skipSpace r with
                          | d :: r' =>
                              if d =? 44 then
                                match parseMembers fuel' (skipSpace r') with
                                | Parsed ms rest => Parsed ((key, v) :: ms) rest
                                | SyntaxError => SyntaxError
                                | OutOfFuel => OutOfFuel
                                end
                              else if d =? 125 then Parsed [(key, v)] r'
                              else SyntaxError
                          | [] => SyntaxError
                          end
                      | SyntaxError => SyntaxError
                      | OutOfFuel => OutOfFuel
                      end
                    else SyntaxError
                | [] => SyntaxError
                end
            | None => SyntaxError
            end
          else SyntaxError
      | [] => SyntaxError
      end
  end.

(** Fuel that suffices for a text: see [parseValue_fuel]. *)
Definition fuelFor (s : jsstring) : nat := (2 * List.length s + 2)%nat.

(** [JSON.parse(text)]: the value of the text, or [None] where
    JSON.parse throws a SyntaxError. *)
Definition JSON_parse (text : jsstring) : option value :=
  match parseValue (fuelFor text) (skipSpace text) with
  | Parsed v rest =>
      match skipSpace rest with
      | [] => Some v
      | _ :: _ => None
      end
  | SyntaxError => None
  | OutOfFuel => None
  end.

End Json.

(** ** Completions: an evaluation returns a value or throws *)

Module Completion.
Import JsString Json.

(** A thrown value.  Anything may be thrown, and a promise may reject
    with anything: [undefined], [null], or a value that has properties,
    of which the code only ever reads [message] (the string of an Error
    object; [JUndefined] for a value without one, such as a thrown
    string or a plain object). *)
Inductive Error : Type :=
  | ThrownUndefined
  | ThrownNull
  | ThrownValue (message : value).

(** [new Error(msg)] *)
Definition mkError (msg : jsstring) : Error := ThrownValue (JStr msg).

Inductive completion (A : Type) : Type :=
  | Normal (a : A)
  | Throw (e : Error).
Arguments Normal {A} a.
Arguments Throw {A} e.

Definition ret {A : Type} (a : A) : completion A := Normal a.

(** Sequencing ([await] included): a throw ends the block. *)
Definition bind {A B : Type} (c : completion A) (k : A -> completion B)
  : completion B :=
  match c with
  | Normal a => k a
  | Throw e => Throw e
  end.

(** [try { body } catch (error) { handler }] *)
Definition tryCatch {A : Type} (body : completion A)
           (handler : Error -> completion A) : completion A :=
  match body with
  | Normal a => Normal a
  | Throw e => handler e
  end.

(** [throw new Error(msg)] *)
Definition throwError {A : Type} (msg : jsstring) : completion A :=
  Throw (mkError msg).

(** [error.message]: reading a property of undefined or null throws a
    TypeError. *)
Definition getMessage (error : Error) : completion value :=
  match error with
  | ThrownUndefined =>
      throwError (lit "Cannot read properties of undefined (reading 'message')")
  | ThrownNull =>
      throwError (lit "Cannot read properties of null (reading 'message')")
  | ThrownValue message => Normal message
  end.

(** The [message] of a thrown value that has properties. *)
Definition message (error : Error) : value :=
  match error with
  | ThrownValue message => message
  | ThrownUndefined | ThrownNull => JUndefined
  end.

Declare Scope completion_scope.
Delimit Scope completion_scope with completion.
Notation "x <- c ;; k" := (bind c (fun x => k))
  (at level 61, c at next level, right associativity) : completion_scope.

End Completion.

(** ** The external services *)

Module External.
Import JsString Completion.

(** A chat message handed to the model. *)
Record ChatMessage : Type := mkMessage { role : jsstring; content : jsstring }.

(** The collaborators the pipeline calls.  Each call returns or throws;
    nothing else about them is assumed. *)
Record Services : Type := mkServices {
  (** [AstraDBVectorStore.fromExistingIndex(embeddings, astraConfig)] *)
  fromExistingIndex : completion unit;
  (** [vectorStore.asRetriever(k).getRelevantDocuments(query)]: the
      page contents of the documents found, best first *)
  retrieve : nat -> jsstring -> completion (list jsstring);
  (** [model.invoke(messages)]: the [content] of the reply *)
  model_invoke : list ChatMessage -> completion jsstring;
  (** [relevanceChain.invoke({query, context})]: the relevance prompt,
      the model and the string output parser in sequence *)
  relevanceChain_invoke : jsstring -> jsstring -> completion jsstring;
  (** [classificationChain.invoke({query})] *)
  classificationChain_invoke : jsstring -> completion jsstring
}.

End External.

(** ** The pipeline *)

Module Pipeline.
Import JsString JsNumber Json Completion External.
Local Open Scope completion_scope.

(** *** The cleanup of the repair parse (responseService.js, lines 25-30) *)

(** The expression that strips code fences: an opening fence with its
    language tag and the white space after it, or a fence and the white
    space before it. *)
Definition matchFence (s : jsstring) : option nat :=
  match startsWith (lit "```json") s with
  | Some rest => Some (7 + List.length (takeWhile isWhiteSpace rest))%nat
  | None =>
      match startsWith (lit "```") (dropWhile isWhiteSpace s) with
      | Some _ => Some (List.length (takeWhile isWhiteSpace s) + 3)%nat
      | None => None
      end
  end.

(** U+201C and U+201D *)
Definition isSmartQuote (c : char16) : bool := (c =? 8220) || (c =? 8221).

(** Carriage return and line feed *)
Definition isLineBreak (c : char16) : bool := (c =? 13) || (c =? 10).

Definition removeMarkdown (s : jsstring) : jsstring := replaceAll matchFence [] s.
Definition replaceSmartQuotes (s : jsstring) : jsstring :=
  replaceAll (matchClass isSmartQuote) [34] s.
Definition removeNewlines (s : jsstring) : jsstring :=
  replaceAll (matchClass isLineBreak) [] s.
Definition normalizeSpaces (s : jsstring) : jsstring :=
  replaceAll matchSpaces (lit " ") s.

Definition cleaned (content : jsstring) : jsstring :=
  trim (normalizeSpaces (removeNewlines (replaceSmartQuotes (removeMarkdown content)))).

(** The cleanup as the specification words it, step by step: the code
    fences stripped, each typographic double quote made a plain one,
    every line break removed, each run of white space collapsed to a
    single space, the ends trimmed.  [repair_cleanup_refines] compares
    it with [cleaned]. *)
Definition plainQuote (c : char16) : char16 :=
  if isSmartQuote c then 34 else c.

Definition notLineBreak (c : char16) : bool := negb (isLineBreak c).

(** [inRun]: the code unit before was white space, and its run has
    already given its space. *)
Fixpoint collapseSpaces (inRun : bool) (s : jsstring) : jsstring :=
  match s with
  | [] => []
  | c :: s' =>
      if isWhiteSpace c
      then (if inRun then collapseSpaces true s' else 32 :: collapseSpaces true s')
      else c :: collapseSpaces false s'
  end.

Definition cleanupSpec (content : jsstring) : jsstring :=
  trim (collapseSpaces false
          (filter notLineBreak (map plainQuote (removeMarkdown content)))).

(** [JSON.parse] as a completion; the SyntaxError's message is the
    engine's and no caller reads it. *)
Definition JSON_parse_c (text : jsstring) : completion value :=
  match JSON_parse text with
  | Some v => Normal v
  | None => throwError (lit "Unexpected token in JSON")
  end.

(** The two parse attempts (lines 18-36). *)
Definition parseResponse (content : jsstring) : completion value :=
  tryCatch (JSON_parse_c content)
    (fun parseError =>
       tryCatch (JSON_parse_c (cleaned content))
         (fun secondError => throwError (lit "Could not parse response"))).

(** [v.k] for the keys the handler reads ([answer], [confidence],
    [sourcesUsed], [relevantDocs]): none of them is an array index,
    [length] or a property of a built-in prototype, so only an object's
    own properties answer; reading a property of [null] or of
    [undefined] throws a TypeError.  [None] is the [undefined] of a
    property that is not there. *)
Definition member (v : value) (k : jsstring) : completion (option value) :=
  match v with
  | JNull =>
      throwError (lit "Cannot read properties of null (reading '" ++ k ++ lit "')")
  | JUndefined =>
      throwError (lit "Cannot read properties of undefined (reading '" ++ k ++ lit "')")
  | JObj props => Normal (lookup k props)
  | _ => Normal None
  end.

(** ToBoolean of a possibly undefined value. *)
Definition truthyOpt (v : option value) : bool :=
  match v with
  | Some v => truthy v
  | None => false
  end.

(** [typeof v === 'number' ? v : dflt] *)
Definition numberOr (v : option value) (dflt : number) : number :=
  match v with
  | Some (JNum x) => x
  | _ => dflt
  end.

(** [Array.isArray(v) ? v : []] *)
Definition arrayOr (v : option value) : list value :=
  match v with
  | Some (JArr items) => items
  | _ => []
  end.

(** The source's literals 0.95 and 1. *)
Definition num_0_95 : number := Eval vm_compute in ofDecimal false 95 (-2).
Definition num_1 : number := Eval vm_compute in ofDecimal false 1 0.

(** *** responseService.js: the static responders *)

Definition handleTechnicalNoDocs : value :=
  JObj [ (lit "type", JStr (lit "TECHNICAL_NO_DOCS"));
         (lit "message", JStr (lit "Your technical question requires specialized attention as it's not covered in our documentation."));
         (lit "contactInfo",
           JObj [ (lit "email", JStr (lit "tech@support.com"));
                  (lit "phone", JStr (lit "1-800-XXX-YYYY"));
                  (lit "supportHours", JStr (lit "24/7")) ]);
         (lit "ticketPriority", JStr (lit "High")) ].

Definition handleBilling : value :=
  JObj [ (lit "type", JStr (lit "BILLING"));
         (lit "message", JStr (lit "For your security, billing inquiries must be handled through our secure billing channels."));
         (lit "contactInfo",
           JObj [ (lit "email", JStr (lit "billing@support.com"));
                  (lit "phone", JStr (lit "1-800-XXX-XXXX"));
                  (lit "hours", JStr (lit "Monday-Friday, 9 AM - 5 PM EST")) ]);
         (lit "securityNote", JStr (lit "Never share payment information through unsecured channels.")) ].

Definition handleIrrelevant : value :=
  JObj [ (lit "type", JStr (lit "IRRELEVANT"));
         (lit "message", JStr (lit "Your query doesn't match our supported categories or may be outside our scope."));
         (lit "suggestion", JStr (lit "Please rephrase your question or choose from our available support categories."));
         (lit "availableCategories",
           JArr [ JStr (lit "Technical Support");
                  JStr (lit "Billing & Payments");
                  JStr (lit "Product Information") ]) ].

(** *** responseService.js: the synthesizer's prompts and its record *)

Definition systemPrompt : ChatMessage :=
  mkMessage (lit "system")
    (lit "You are a technical support AI. You must return a valid JSON response with the exact structure provided. Do not include any additional formatting or explanation.").

Definition userPrompt (query context : jsstring) : ChatMessage :=
  mkMessage (lit "user")
    (lit "Context: " ++ context ++ [10; 10] ++
     lit "Question: " ++ query ++ [10; 10] ++
     lit "Provide your response in this EXACT JSON structure (no additional text or formatting):" ++ [10] ++
     litq "{'type':'TECHNICAL_WITH_DOCS','priority':'HIGH - Documentation Available','responseTime':'Immediate - Using Available Documentation','answer':'your answer here','confidence':0.95,'sourcesUsed':1,'relevantDocs':[]}").

(** The object literal of lines 42-50, from what was read off the
    parsed reply. *)
Definition technicalWithDocs (answer : value)
           (confidence sourcesUsed relevantDocs : option value) : value :=
  JObj [ (lit "type", JStr (lit "TECHNICAL_WITH_DOCS"));
         (lit "priority", JStr (lit "HIGH - Documentation Available"));
         (lit "responseTime", JStr (lit "Immediate - Using Available Documentation"));
         (lit "answer", answer);
         (lit "confidence", JNum (numberOr confidence num_0_95));
         (lit "sourcesUsed", JNum (numberOr sourcesUsed num_1));
         (lit "relevantDocs", JArr (arrayOr relevantDocs)) ].

(** Lines 38-50: the required field, then the record. *)
Definition buildResponse (parsedResponse : value) : completion value :=
  answer <- member parsedResponse (lit "answer") ;;
  if negb (truthyOpt answer)
  then throwError (lit "Response missing required fields")
  else
    match answer with
    | Some a =>
        confidence <- member parsedResponse (lit "confidence") ;;
        sourcesUsed <- member parsedResponse (lit "sourcesUsed") ;;
        relevantDocs <- member parsedResponse (lit "relevantDocs") ;;
        ret (technicalWithDocs a confidence sourcesUsed relevantDocs)
    | None => throwError (lit "Response missing required fields")
    end.

Section WithServices.

(** The Unicode upper-case mapping above ASCII (see [toUpperCase]). *)
Variable upperTable : N -> list N.
Variable svc : Services.

(** *** documentService.js *)

Definition createRetriever : completion unit := fromExistingIndex svc.

(** [formatDocumentsAsString]: the page contents joined by a blank line. *)
Fixpoint formatDocumentsAsString (docs : list jsstring) : jsstring :=
  match docs with
  | [] => []
  | [d] => d
  | d :: rest => d ++ [10; 10] ++ formatDocumentsAsString rest
  end.

Definition getRelevantDocuments (query : jsstring) : completion jsstring :=
  vectorStore <- createRetriever ;;
  relevantDocs <- retrieve svc 5 query ;;
  ret (formatDocumentsAsString relevantDocs).

(** *** classificationService.js *)

Definition checkDocumentRelevance (query context : jsstring) : completion bool :=
  relevanceCheck <- relevanceChain_invoke svc query context ;;
  ret (eqb (toUpperCase upperTable (trim relevanceCheck)) (lit "YES")).

Definition classifyQuery (query context : jsstring) : completion jsstring :=
  hasRelevantDocs <- checkDocumentRelevance query context ;;
  if hasRelevantDocs then ret (lit "TECHNICAL_WITH_DOCS")
  else
    classification <- classificationChain_invoke svc query ;;
    ret (toUpperCase upperTable (trim classification)).

(** *** responseService.js *)

Definition handleTechnicalWithDocs (query context : jsstring) : completion value :=
  tryCatch
    (response <- model_invoke svc [systemPrompt; userPrompt query context] ;;
     parsedResponse <- parseResponse response ;;
     buildResponse parsedResponse)
    (fun error => ret handleTechnicalNoDocs).

Definition handleQuery (query queryType context : jsstring) : completion value :=
  if eqb queryType (lit "TECHNICAL_WITH_DOCS") then handleTechnicalWithDocs query context
  else if eqb queryType (lit "TECHNICAL_NO_DOCS") then ret handleTechnicalNoDocs
  else if eqb queryType (lit "BILLING") then ret handleBilling
  else if eqb queryType (lit "IRRELEVANT") then ret handleIrrelevant
  else ret handleIrrelevant.

(** *** rag.js: the entry point *)

(** The object literal of the catch block of [askQuestion], for a
    thrown value whose [message] could be read. *)
Definition errorResponse (error : Error) : value :=
  JObj [ (lit "type", JStr (lit "ERROR"));
         (lit "message", JStr (lit "An error occurred while processing your query."));
         (lit "error", message error) ].

(** The body of the try block and the catch block; the console output
    in between has no part in the result and is left out.  The catch
    block evaluates [error.message] for its object literal, which throws
    when the value caught is undefined or null. *)
Definition askQuestion (query : jsstring) : completion value :=
  tryCatch
    (context <- getRelevantDocuments query ;;
     queryType <- classifyQuery query context ;;
     response <- handleQuery query queryType context ;;
     ret response)
    (fun error =>
       message <- getMessage error ;;
       ret (errorResponse error)).

(** *** rag.js: its own [handleQuery]

    rag.js still carries an earlier copy of the dispatcher, which
    [askQuestion] does not call.  It parses the model's reply as
    [handleTechnicalWithDocs] does, falls back to a record of its own,
    and has no default case: [None] is the [undefined] it returns for
    any other query type. *)
Definition ragFallback : value :=
  JObj [ (lit "type", JStr (lit "TECHNICAL_NO_DOCS"));
         (lit "message", JStr (lit "Unable to process the technical documentation response. Redirecting to support."));
         (lit "contactInfo",
           JObj [ (lit "email", JStr (lit "tech@support.com"));
                  (lit "phone", JStr (lit "1-800-XXX-YYYY"));
                  (lit "supportHours", JStr (lit "24/7")) ]);
         (lit "ticketPriority", JStr (lit "High")) ].

Definition ragHandleQuery (query queryType context : jsstring)
  : completion (option value) :=
  if eqb queryType (lit "TECHNICAL_WITH_DOCS") then
    tryCatch
      (response <- model_invoke svc [systemPrompt; userPrompt query context] ;;
       parsedResponse <- parseResponse response ;;
       r <- buildResponse parsedResponse ;;
       ret (Some r))
      (fun error => ret (Some ragFallback))
  else if eqb queryType (lit "TECHNICAL_NO_DOCS") then ret (Some handleTechnicalNoDocs)
  else if eqb queryType (lit "BILLING") then ret (Some handleBilling)
  else if eqb queryType (lit "IRRELEVANT") then ret (Some handleIrrelevant)
  else ret None.

End WithServices.

(** *** Reading a response *)

(** [r.k] on a response record. *)
Definition field (k : string) (r : value) : option value :=
  match r with
  | JObj props => lookup (lit k) props
  | _ => None
  end.
Arguments field k%_string r.

(** The five tags a response may carry. *)
Definition responseTags : list jsstring :=
  [ lit "TECHNICAL_WITH_DOCS"; lit "TECHNICAL_NO_DOCS"; lit "BILLING";
    lit "IRRELEVANT"; lit "ERROR" ].

End Pipeline.

(** ** Fixed collaborators for concrete runs *)

Module Fixtures.
Import JsString Json Completion External Pipeline.

(** Services that answer every call the same way: the store is
    reachable and finds [docs]; the relevance chain, the classification
    chain and the synthesizer's model call complete as given. *)
Definition cannedServices (docs : list jsstring)
           (relevance classification reply : completion jsstring) : Services :=
  mkServices (Normal tt)
             (fun _ _ => Normal docs)
             (fun _ => reply)
             (fun _ _ => relevance)
             (fun _ => classification).

(** Services whose vector store cannot be reached. *)
Definition unreachableStore (e : Error) : Services :=
  mkServices (Throw e)
             (fun _ _ => Normal [])
             (fun _ => Normal [])
             (fun _ _ => Normal [])
             (fun _ => Normal []).

(** An upper-case table that leaves every code point above ASCII as it
    is; the concrete runs below use ASCII replies only. *)
Definition asciiOnlyTable (cp : N) : list N := [cp].

(** The reply of the specification's recovery example: the JSON text
    between a json fence and a closing fence, each on a line of its own. *)
Definition fencedReply : jsstring :=
  lit "```json" ++ [10] ++ litq "{'answer':'x'}" ++ [10] ++ lit "```".











End Fixtures.

(** ** JSON.stringify of the request *)

Module JsonStringify.
Import JsString Json.

(** A hexadecimal digit, in lower case as UnicodeEscape writes it. *)
Definition hexDigitChar (d : N) : char16 :=
  if d <? 10 then 48 + d else 87 + d.

(** UnicodeEscape: a reverse solidus, u, and four hexadecimal digits. *)
Definition unicodeEscape (c : N) : jsstring :=
  [92; 117; hexDigitChar (c / 4096); hexDigitChar ((c / 256) mod 16);
   hexDigitChar ((c / 16) mod 16); hexDigitChar (c mod 16)].

Definition isSurrogate (c : N) : bool := (55296 <=? c) && (c <=? 57343).

(** One code point of QuoteJSONString: the two-character escapes of
    backspace, tab, line feed, form feed, carriage return, the quotation
    mark and the reverse solidus; a unicode escape for the other control
    characters and for a surrogate that has no partner; the code point
    itself otherwise. *)
Definition quoteCodePoint (cp : N) : jsstring :=
  if cp =? 8 then [92; 98]
  else if cp =? 9 then [92; 116]
  else if cp =? 10 then [92; 110]
  else if cp =? 12 then [92; 102]
  else if cp =? 13 then [92; 114]
  else if cp =? 34 then [92; 34]
  else if cp =? 92 then [92; 92]
  else if (cp <? 32) || isSurrogate cp then unicodeEscape cp
  else encodeCodePoint cp.

Definition QuoteJSONString (s : jsstring) : jsstring :=
  [34] ++ flat_map quoteCodePoint (codePoints s) ++ [34].

(** [JSON.stringify({ query: message })] *)
Definition stringifyQuery (message : jsstring) : jsstring :=
  [123] ++ QuoteJSONString (lit "query") ++ [58] ++ QuoteJSONString message ++ [125].

(** The strings of the language: every element is a 16-bit code unit. *)
Definition isString16 (s : jsstring) : bool := forallb (fun c => c <? 65536) s.

End JsonStringify.

(** ** The server: the query endpoint (server file, lines 17-37) *)

Module Server.
Import JsString JsNumber Json Completion External Pipeline.
Local Open Scope completion_scope.

(** *** A value on the wire

    [res.json(v)] sends the text [JSON.stringify(v)], and whoever reads
    the body with [JSON.parse] gets [serialized v]: a number that is not
    finite has become [null] and negative zero zero (a finite number
    reads back as itself: its decimal form is the shortest that does), a
    property holding [undefined] is gone, [undefined] in an array has
    become [null]; strings, booleans and [null] are unchanged.  At the
    top [undefined] stays: nothing is written for it.  The properties of
    an object of the language are in property order and without
    repetition already, so reading them back leaves their order. *)
Fixpoint serialized (v : value) : value :=
  match v with
  | JNum x =>
      match x with
      | S754_zero _ => JNum (S754_zero false)
      | S754_finite _ _ _ => JNum x
      | S754_infinity _ | S754_nan => JNull
      end
  | JArr items =>
      JArr (map (fun item =>
                   match serialized item with
                   | JUndefined => JNull
                   | w => w
                   end) items)
  | JObj props =>
      JObj ((fix properties (ps : list (jsstring * value)) : list (jsstring * value) :=
               match ps with
               | [] => []
               | (k, x) :: rest =>
                   match serialized x with
                   | JUndefined => properties rest
                   | w => (k, w) :: properties rest
                   end
               end) props)
  | JNull | JBool _ | JStr _ | JUndefined => v
  end.

(** What the server sends: a status code and a JSON body, the body
    given by the value [JSON.parse] reads from it. *)
Record HttpResponse : Type := mkHttp { status : N; payload : value }.

(** [res.status(code).json(v)] *)
Definition res_status_json (code : N) (v : value) : HttpResponse :=
  mkHttp code (serialized v).

(** [res.json(v)]: status 200 unless [res.status] set another. *)
Definition res_json (v : value) : HttpResponse := res_status_json 200 v.

Definition invalidRequest : value :=
  JObj [ (lit "error", JStr (lit "Invalid request"));
         (lit "message", JStr (lit "Query must be a non-empty string")) ].

(** The object literal of the two places that answer 500, for a caught
    value whose [message] could be read. *)
Definition internalServerError (error : Error) : value :=
  JObj [ (lit "error", JStr (lit "Internal server error"));
         (lit "message", message error) ].

(** [const { query } = req.body]: [req.body] is what the JSON body
    parser left there, [None] when it left nothing.  Destructuring
    undefined or null throws a TypeError; any other value is asked for
    its property [query], which no built-in prototype has. *)
Definition destructureQuery (body : option value) : completion (option value) :=
  match body with
  | None | Some JUndefined =>
      throwError (lit "Cannot destructure property 'query' of 'req.body' as it is undefined.")
  | Some JNull =>
      throwError (lit "Cannot destructure property 'query' of 'req.body' as it is null.")
  | Some (JObj props) => Normal (lookup (lit "query") props)
  | Some _ => Normal None
  end.

(** [typeof v === 'string'] *)
Definition isStringValue (v : option value) : bool :=
  match v with
  | Some (JStr _) => true
  | _ => false
  end.

(** *** The JSON body parser (line 9) and the error middleware (lines 39-46)

    [express.json()] with its defaults, on the text of a body sent with
    the JSON content type: a body of more than 100kb is refused; an empty
    body gives the empty object; in strict mode the first character
    after white space must open an object or an array; then
    [JSON.parse].  Each refusal is an Error object handed to the error
    middleware. *)
Definition bodyLimit : N := 102400.

(** The number of bytes of the UTF-8 encoding. *)
Definition utf8Length (s : jsstring) : N :=
  fold_left (fun n cp =>
               n + (if cp <? 128 then 1
                    else if cp <? 2048 then 2
                    else if cp <? 65536 then 3 else 4))
            (codePoints s) 0.

Definition expressJson (text : jsstring) : completion (option value) :=
  if bodyLimit <? utf8Length text
  then throwError (lit "request entity too large")
  else
    match text with
    | [] => Normal (Some (JObj []))
    | _ :: _ =>
        match skipSpace text with
        | c :: _ =>
            if (c =? 123) || (c =? 91)
            then match JSON_parse text with
                 | Some v => Normal (Some v)
                 | None => throwError (lit "Unexpected token in JSON")
                 end
            else throwError (lit "Unexpected token in JSON")
        | [] => throwError (lit "Unexpected token in JSON")
        end
    end.

(** [app.use((err, req, res, next) => ...)] *)
Definition errorMiddleware (err : Error) : completion HttpResponse :=
  message <- getMessage err ;;
  ret (res_status_json 500 (internalServerError err)).

Section WithServices.
Variable upperTable : N -> list N.
Variable svc : Services.

(** [app.post('/api/query', ...)], on [req.body] *)
Definition postQuery (body : option value) : completion HttpResponse :=
  tryCatch
    (query <- destructureQuery body ;;
     if negb (truthyOpt query) || negb (isStringValue query)
     then ret (res_status_json 400 invalidRequest)
     else
       match query with
       | Some (JStr q) =>
           response <- askQuestion upperTable svc q ;;
           ret (res_json response)
       | _ => ret (res_status_json 400 invalidRequest)
       end)
    (fun error =>
       message <- getMessage error ;;
       ret (res_status_json 500 (internalServerError error))).

(** A POST to /api/query with a JSON content type and the body [text]:
    the body parser, then the handler, or the error middleware when the
    parser refuses. *)
Definition postQueryRequest (text : jsstring) : completion HttpResponse :=
  match expressJson text with
  | Normal body => postQuery body
  | Throw err => errorMiddleware err
  end.

End WithServices.

End Server.

(** ** The chat interface (rag.js, lines 310-405) *)

Module ChatInterface.
Import JsString Json Completion External Pipeline JsonStringify.
Local Open Scope completion_scope.

Inductive Sender : Type := user | ai.

(** The metadata of a reply; [None] is a field read as undefined. *)
Record Metadata : Type := mkMetadata {
  md_type : option value;
  md_priority : option value;
  md_confidence : option value;
  md_sourcesUsed : option value;
  md_responseTime : option value
}.

(** An entry of the conversation. [metadata] is absent and [isError]
    not set on the entries that do not carry them. *)
Record Message : Type := mkEntry {
  text : value;
  sender : Sender;
  metadata : option Metadata;
  isError : bool
}.

(** The component's state. *)
Record State : Type := mkState {
  messages : list Message;
  inputValue : jsstring;
  isLoading : bool
}.

Definition initialState : State := mkState [] [] false.

(** What [fetch] resolves to: the status and the text of the body. *)
Record FetchReply : Type := mkReply { reply_status : N; reply_body : jsstring }.

(** [response.ok] *)
Definition ok (r : FetchReply) : bool :=
  (200 <=? reply_status r) && (reply_status r <=? 299).

(** The decimal numeral of a status code, as the template literal
    writes it. *)
Definition numberToString (n : N) : jsstring :=
  lit (NilZero.string_of_uint (N.to_uint n)).

(** [response.json()] *)
Definition json (r : FetchReply) : completion value :=
  match JSON_parse (reply_body r) with
  | Some v => Normal v
  | None => throwError (lit "Unexpected token in JSON")
  end.

(** [formatResponse]: what is shown of a reply. *)
Definition formatResponse (responseData : value) : completion (value * Metadata) :=
  answer <- member responseData (lit "answer") ;;
  let mainText :=
    match answer with
    | Some a => if truthy a then a else JStr (lit "No answer provided")
    | None => JStr (lit "No answer provided")
    end in
  type <- member responseData (lit "type") ;;
  priority <- member responseData (lit "priority") ;;
  confidence <- member responseData (lit "confidence") ;;
  sourcesUsed <- member responseData (lit "sourcesUsed") ;;
  responseTime <- member responseData (lit "responseTime") ;;
  ret (mainText, mkMetadata type priority confidence sourcesUsed responseTime).

Definition errorText : jsstring := lit "Sorry, I encountered an error. Please try again.".

Section WithFetch.

(** [fetch('http://localhost:3000/api/query', { method: 'POST', ...,
    body })]: the request goes to one fixed address with fixed headers,
    so the call is a function of the body. *)
Variable fetch : jsstring -> completion FetchReply.

Definition fetchAIResponse (message : jsstring) : completion value :=
  tryCatch
    (response <- fetch (stringifyQuery message) ;;
     if negb (ok response)
     then throwError (lit "API responded with status: " ++ numberToString (reply_status response))
     else json response)
    (fun error => Throw error).

(** [handleInputChange] *)
Definition handleInputChange (st : State) (value : jsstring) : State :=
  mkState (messages st) value (isLoading st).

(** [handleSubmit]: the state its setter calls leave once the handler
    has run to its end (the rendering of that state is [typeAndSubmit]'s
    part). *)
Definition handleSubmit (st : State) : completion State :=
  match trim (inputValue st) with
  | [] => ret st
  | _ :: _ =>
      let userMessage := mkEntry (JStr (inputValue st)) user None false in
      let sent := messages st ++ [userMessage] in
      shown <-
        tryCatch
          (responseData <- fetchAIResponse (inputValue st) ;;
           formattedResponse <- formatResponse responseData ;;
           ret (sent ++ [mkEntry (fst formattedResponse) ai
                                   (Some (snd formattedResponse)) false]))
          (fun error => ret (sent ++ [mkEntry (JStr errorText) ai None true])) ;;
      ret (mkState shown [] false)
  end.

End WithFetch.

(** *** Rendering

    What the component puts between braces in its JSX is a React child:
    a string or a number is shown, a boolean, null or undefined shows
    nothing, an array shows its elements, and an object makes the render
    throw.  There is no error boundary, so a render that throws unmounts
    the component. *)
Fixpoint renderable (v : value) : bool :=
  match v with
  | JObj _ => false
  | JArr items => forallb renderable items
  | JNull | JBool _ | JNum _ | JStr _ | JUndefined => true
  end.

Definition renderableOpt (v : option value) : bool :=
  match v with
  | Some v => renderable v
  | None => true
  end.

(** An entry is drawn with its text and, when it has metadata, its
    type, priority, confidence and sourcesUsed. *)
Definition entryRenders (m : Message) : bool :=
  renderable (text m) &&
  match metadata m with
  | Some md =>
      renderableOpt (md_type md) && renderableOpt (md_priority md) &&
      renderableOpt (md_confidence md) && renderableOpt (md_sourcesUsed md)
  | None => true
  end.

Definition renders (st : State) : bool := forallb entryRenders (messages st).

(** The component on the page. *)
Inductive Component : Type :=
  | Mounted (st : State)
  | Unmounted.

(** The user types [typed] and submits; [fetch] is the network at that
    moment.  The state the handler leaves is rendered; an unmounted
    component takes no input. *)
Definition typeAndSubmit (c : Component)
           (step : jsstring * (jsstring -> completion FetchReply)) : completion Component :=
  match c with
  | Unmounted => ret Unmounted
  | Mounted st =>
      st' <- handleSubmit (snd step) (handleInputChange st (fst step)) ;;
      ret (if renders st' then Mounted st' else Unmounted)
  end.

(** A session: one [typeAndSubmit] after the other.  The input and the
    button are disabled while a request is pending, so a submit starts
    only after the one before it has run to its end. *)
Fixpoint session (c : Component)
         (steps : list (jsstring * (jsstring -> completion FetchReply)))
  : completion Component :=
  match steps with
  | [] => ret c
  | step :: rest => c' <- typeAndSubmit c step ;; session c' rest
  end.

(** Each message of the user is followed by one of the assistant. *)
Fixpoint exchanges (ms : list Message) : bool :=
  match ms with
  | [] => true
  | u :: rest =>
      match rest with
      | a :: rest' =>
          match sender u, sender a with
          | user, ai => exchanges rest'
          | _, _ => false
          end
      | [] => false
      end
  end.

(** The entry of a failed exchange. *)
Definition errorEntry : Message := mkEntry (JStr errorText) ai None true.

Definition userEntry (typed : jsstring) : Message :=
  mkEntry (JStr typed) user None false.

(** A submit of nothing but white space. *)
Definition isBlank (step : jsstring * (jsstring -> completion FetchReply)) : bool :=
  match trim (fst step) with
  | [] => true
  | _ :: _ => false
  end.

End ChatInterface.

(** ** Vocabulary of the further properties *)

Module Shapes.
Import JsString Json Completion External Pipeline.

(** The property names of a record, in order. *)
Definition keys (r : value) : list jsstring :=
  match r with
  | JObj props => map fst props
  | _ => []
  end.

Definition isNumber (v : option value) : bool :=
  match v with Some (JNum _) => true | _ => false end.

Definition isArray (v : option value) : bool :=
  match v with Some (JArr _) => true | _ => false end.

Definition isStr (v : option value) : bool :=
  match v with Some (JStr _) => true | _ => false end.

(** The try block of [askQuestion] throws [e]: retrieval does, or
    classification does ([handleQuery] never throws). *)
Definition thrownInTry (upperTable : N -> list N) (svc : Services)
           (query : jsstring) (e : Error) : Prop :=
  getRelevantDocuments svc query = Throw e \/
  exists context,
    getRelevantDocuments svc query = Normal context /\
    classifyQuery upperTable svc query context = Throw e.

(** Undefined or null. *)
Definition isNullish (e : Error) : bool :=
  match e with
  | ThrownUndefined | ThrownNull => true
  | ThrownValue _ => false
  end.

(** The services [svc] with another classification chain. *)
Definition withClassificationChain (svc : Services)
           (chain : jsstring -> completion jsstring) : Services :=
  mkServices (fromExistingIndex svc) (retrieve svc) (model_invoke svc)
             (relevanceChain_invoke svc) chain.

(** The services [svc] with another model behind the synthesizer. *)
Definition withModel (svc : Services)
           (model : list ChatMessage -> completion jsstring) : Services :=
  mkServices (fromExistingIndex svc) (retrieve svc) model
             (relevanceChain_invoke svc) (classificationChain_invoke svc).

(** Upper case of an ASCII code unit. *)
Definition asciiUpper (c : char16) : char16 :=
  if (97 <=? c) && (c <=? 122) then c - 32 else c.

Definition isAscii (s : jsstring) : bool := forallb (fun c => c <? 128) s.

(** A reply as a model words it: the token [core] with white space
    [before] and [after]; [core] itself begins and ends with something
    else than white space. *)
Definition padded (before core after : jsstring) : jsstring :=
  before ++ core ++ after.

Definition startsSolid (s : jsstring) : bool :=
  match s with
  | c :: _ => negb (isWhiteSpace c)
  | [] => false
  end.

(** No white space other than single spaces: no two white-space code
    units in a row, and each of them a plain space. *)
Fixpoint singleSpaced (s : jsstring) : bool :=
  match s with
  | [] => true
  | a :: t =>
      (negb (isWhiteSpace a) || (a =? 32)) &&
      match t with
      | b :: _ => negb (isWhiteSpace a && isWhiteSpace b)
      | [] => true
      end && singleSpaced t
  end.

(** Neither end is white space. *)
Definition trimmed (s : jsstring) : bool :=
  match s with
  | [] => true
  | _ :: _ => startsSolid s && startsSolid (rev s)
  end.

(** What the cleanup leaves of a code unit: no curly quote, and no white
    space but the plain space. *)
Definition cleanChar (c : char16) : bool :=
  negb (isSmartQuote c) && (negb (isWhiteSpace c) || (c =? 32)).

(** Empty, or beginning with something else than white space. *)
Definition headSolid (s : jsstring) : bool :=
  match s with
  | c :: _ => negb (isWhiteSpace c)
  | [] => true
  end.

End Shapes.

(** * Properties *)

(** ** Facts about strings and replacement *)

Module JsStringFacts.
Import JsString.

Lemma eqb_eq (s t : jsstring) : eqb s t = true <-> s = t.
Proof.
  revert t; induction s as [|c s IH]; intros [|d t]; simpl;
    try (split; [discriminate | discriminate]); try tauto.
  rewrite andb_true_iff, N.eqb_eq, IH.
  split; [intros [-> ->]; reflexivity | intros H; injection H; auto].
Qed.

Lemma eqb_refl (s : jsstring) : eqb s s = true.
Proof. apply eqb_eq; reflexivity. Qed.

Lemma eqb_neq (s t : jsstring) : eqb s t = false <-> s <> t.
Proof.
  rewrite <- eqb_eq. destruct (eqb s t); split; congruence.
Qed.

(** Passing over [k] code units of a match is dropping them. *)
Lemma replaceFrom_skip m repl k s :
  replaceFrom m repl k s = replaceFrom m repl O (skipn k s) \/
  (List.length s < k)%nat /\ replaceFrom m repl k s = [].
Proof.
  revert s; induction k as [|k IH]; intros s; [left; reflexivity|].
  destruct s as [|c s']; simpl; [right; split; [lia | reflexivity]|].
  destruct (IH s') as [H | [Hl H]]; [left; exact H | right; split; [lia | exact H]].
Qed.

Lemma skipn_takeWhile p s :
  skipn (List.length (takeWhile p s)) s = dropWhile p s.
Proof.
  induction s as [|c s IH]; simpl; [reflexivity|].
  destruct (p c); simpl; [exact IH | reflexivity].
Qed.

Lemma dropWhile_length p s : (List.length (dropWhile p s) <= List.length s)%nat.
Proof.
  induction s as [|c s IH]; simpl; [lia|].
  destruct (p c); simpl; lia.
Qed.

Lemma takeWhile_length p s : (List.length (takeWhile p s) <= List.length s)%nat.
Proof.
  induction s as [|c s IH]; simpl; [lia|].
  destruct (p c); simpl; lia.
Qed.

Lemma replaceFrom_takeWhile m repl p s :
  replaceFrom m repl (List.length (takeWhile p s)) s =
  replaceFrom m repl O (dropWhile p s).
Proof.
  destruct (replaceFrom_skip m repl (List.length (takeWhile p s)) s) as [H | [Hl _]].
  - rewrite H, skipn_takeWhile; reflexivity.
  - pose proof (takeWhile_length p s); lia.
Qed.

(** Replacing the members of a class by one code unit is a [map]. *)
Lemma replaceAll_class_map p x s :
  replaceAll (matchClass p) [x] s = map (fun c => if p c then x else c) s.
Proof.
  unfold replaceAll.
  induction s as [|c s IH]; simpl; [reflexivity|].
  destruct (p c); simpl; rewrite IH; reflexivity.
Qed.

(** Replacing the members of a class by nothing is a [filter]. *)
Lemma replaceAll_class_filter p s :
  replaceAll (matchClass p) [] s = filter (fun c => negb (p c)) s.
Proof.
  unfold replaceAll.
  induction s as [|c s IH]; simpl; [reflexivity|].
  destruct (p c); simpl; rewrite IH; reflexivity.
Qed.

End JsStringFacts.

(** ** JSON.parse reads every text to the end *)

Module JsonFacts.
Import JsString JsNumber Json JsStringFacts.

Lemma skipSpace_length s : (List.length (skipSpace s) <= List.length s)%nat.
Proof. apply dropWhile_length. Qed.

Lemma startsWith_length p s rest :
  startsWith p s = Some rest -> List.length s = (List.length p + List.length rest)%nat.
Proof.
  revert s; induction p as [|a p IH]; intros [|c s] H; simpl in *;
    try discriminate; try (injection H as <-; reflexivity).
  destruct (a =? c); [|discriminate].
  rewrite (IH _ H); reflexivity.
Qed.

(** A string literal ends strictly inside the text. *)
Lemma stringChars_length s str rest :
  stringChars s = Some (str, rest) -> (List.length rest < List.length s)%nat.
Proof.
  remember (List.length s) as n eqn:Hn.
  assert (Hle : (List.length s <= n)%nat) by lia. clear Hn.
  revert s str rest Hle.
  induction n as [|n IH]; intros [|c s1] str rest Hle H; simpl in *;
    try discriminate; try lia.
  destruct (c =? 34).
  { injection H as _ <-. lia. }
  destruct (c =? 92).
  - destruct s1 as [|e s2]; [discriminate|].
    destruct (e =? 117).
    + destruct s2 as [|a [|b [|c' [|d s3]]]]; try discriminate.
      destruct (hex4 a b c' d); [|discriminate].
      destruct (stringChars s3) as [[str' rest']|] eqn:E; [|discriminate].
      injection H as _ <-.
      apply IH in E; simpl in *; lia.
    + destruct (simpleEscape e); [|discriminate].
      destruct (stringChars s2) as [[str' rest']|] eqn:E; [|discriminate].
      injection H as _ <-.
      apply IH in E; simpl in *; lia.
  - destruct (c <? 32); [discriminate|].
    destruct (stringChars s1) as [[str' rest']|] eqn:E; [|discriminate].
    injection H as _ <-.
    apply IH in E; simpl in *; lia.
Qed.

Lemma intPart_length s ip rest :
  intPart s = Some (ip, rest) -> (List.length rest < List.length s)%nat.
Proof.
  destruct s as [|c s']; simpl; [discriminate|].
  destruct (c =? 48).
  { intros H; injection H as _ <-. lia. }
  destruct (isDigit c) eqn:D; [|discriminate].
  intros H; injection H as _ <-.
  pose proof (dropWhile_length isDigit s'). lia.
Qed.

Lemma fracPart_length s fp rest :
  fracPart s = Some (fp, rest) -> (List.length rest <= List.length s)%nat.
Proof.
  destruct s as [|c s']; simpl.
  { intros H; injection H as _ <-. simpl; lia. }
  destruct (c =? 46).
  - destruct (takeWhile isDigit s'); [discriminate|].
    intros H; injection H as _ <-.
    pose proof (dropWhile_length isDigit s'). lia.
  - intros H; injection H as _ <-. simpl; lia.
Qed.

Lemma expPart_length s ex rest :
  expPart s = Some (ex, rest) -> (List.length rest <= List.length s)%nat.
Proof.
  destruct s as [|c s']; simpl.
  { intros H; injection H as _ <-. simpl; lia. }
  destruct ((c =? 101) || (c =? 69)).
  - destruct s' as [|sg t]; simpl; [discriminate|].
    destruct (sg =? 45); [|destruct (sg =? 43)];
      match goal with
      | |- context [takeWhile isDigit ?u] =>
          destruct (takeWhile isDigit u); [discriminate|];
          intros H; injection H as _ <-;
          pose proof (dropWhile_length isDigit u); simpl in *; lia
      end.
  - intros H; injection H as _ <-. simpl; lia.
Qed.

Lemma parseNumber_length s x rest :
  parseNumber s = Some (x, rest) -> (List.length rest < List.length s)%nat.
Proof.
  unfold parseNumber.
  assert (Hs : forall neg s0, (List.length s0 <= List.length s)%nat ->
    match intPart s0 with
    | None => None
    | Some (ip, s1) =>
        match fracPart s1 with
        | None => None
        | Some (fp, s2) =>
            match expPart s2 with
            | None => None
            | Some (ex, s3) =>
                Some (ofDecimal neg (digitsValue (ip ++ fp))
                                (ex - Z.of_nat (List.length fp)), s3)
            end
        end
    end = Some (x, rest) -> (List.length rest < List.length s)%nat).
  { intros neg s0 Hl.
    destruct (intPart s0) as [[ip s1]|] eqn:E1; [|discriminate].
    destruct (fracPart s1) as [[fp s2]|] eqn:E2; [|discriminate].
    destruct (expPart s2) as [[ex s3]|] eqn:E3; [|discriminate].
    intros H; injection H as _ <-.
    apply intPart_length in E1. apply fracPart_length in E2.
    apply expPart_length in E3. lia. }
  destruct s as [|c t]; [apply (Hs false); lia|].
  destruct (c =? 45); [apply (Hs true); simpl; lia | apply (Hs false); lia].
Qed.


(** Each of the three parsers consumes at least one code unit. *)
Lemma parse_progress fuel :
  (forall s v r, parseValue fuel s = Parsed v r ->
                 (List.length r < List.length s)%nat) /\
  (forall s vs r, parseElements fuel s = Parsed vs r ->
                  (List.length r < List.length s)%nat) /\
  (forall s ms r, parseMembers fuel s = Parsed ms r ->
                  (List.length r < List.length s)%nat).
Proof.
  induction fuel as [|fuel (IHv & IHe & IHm)].
  { repeat split; intros; discriminate. }
  repeat split.
  - intros s v r H. cbn [parseValue parseElements parseMembers] in H.
    destruct s as [|c s']; [discriminate|].
    destruct (c =? 123).
    { pose proof (skipSpace_length s') as Hsk.
      destruct (skipSpace s') as [|d t]; [discriminate|].
      destruct (d =? 125).
      - injection H as _ <-. simpl in *; lia.
      - destruct (parseMembers fuel (d :: t)) eqn:E; try discriminate.
        injection H as _ <-. apply IHm in E. simpl in *; lia. }
    destruct (c =? 91).
    { pose proof (skipSpace_length s') as Hsk.
      destruct (skipSpace s') as [|d t]; [discriminate|].
      destruct (d =? 93).
      - injection H as _ <-. simpl in *; lia.
      - destruct (parseElements fuel (d :: t)) eqn:E; try discriminate.
        injection H as _ <-. apply IHe in E. simpl in *; lia. }
    destruct (c =? 34).
    { destruct (stringChars s') as [[str rest]|] eqn:E; [|discriminate].
      injection H as _ <-. apply stringChars_length in E. simpl; lia. }
    destruct ((c =? 45) || isDigit c).
    { destruct (parseNumber (c :: s')) as [[x rest]|] eqn:E; [|discriminate].
      injection H as _ <-. apply parseNumber_length in E. exact E. }
    destruct (startsWith (lit "true") (c :: s')) eqn:E1.
    { injection H as _ <-. apply startsWith_length in E1. rewrite E1. simpl; lia. }
    destruct (startsWith (lit "false") (c :: s')) eqn:E2.
    { injection H as _ <-. apply startsWith_length in E2. rewrite E2. simpl; lia. }
    destruct (startsWith (lit "null") (c :: s')) eqn:E3; [|discriminate].
    injection H as _ <-. apply startsWith_length in E3. rewrite E3. simpl; lia.
  - intros s vs r H. cbn [parseValue parseElements parseMembers] in H.
    destruct (parseValue fuel s) as [v r0| |] eqn:E; try discriminate.
    apply IHv in E.
    pose proof (skipSpace_length r0) as Hsk.
    destruct (skipSpace r0) as [|d r']; [discriminate|].
    destruct (d =? 44).
    + pose proof (skipSpace_length r') as Hsk'.
      destruct (parseElements fuel (skipSpace r')) eqn:E'; try discriminate.
      injection H as _ <-. apply IHe in E'. simpl in *; lia.
    + destruct (d =? 93); [|discriminate].
      injection H as _ <-. simpl in *; lia.
  - intros s ms r H. cbn [parseValue parseElements parseMembers] in H.
    destruct s as [|q s']; [discriminate|].
    destruct (q =? 34); [|discriminate].
    destruct (stringChars s') as [[key r0]|] eqn:Ek; [|discriminate].
    apply stringChars_length in Ek.
    pose proof (skipSpace_length r0) as Hs0.
    destruct (skipSpace r0) as [|col r1]; [discriminate|].
    destruct (col =? 58); [|discriminate].
    pose proof (skipSpace_length r1) as Hs1.
    destruct (parseValue fuel (skipSpace r1)) as [v r2| |] eqn:E; try discriminate.
    apply IHv in E.
    pose proof (skipSpace_length r2) as Hs2.
    destruct (skipSpace r2) as [|d r']; [discriminate|].
    destruct (d =? 44).
    + pose proof (skipSpace_length r') as Hsk'.
      destruct (parseMembers fuel (skipSpace r')) eqn:E'; try discriminate.
      injection H as _ <-. apply IHm in E'. simpl in *; lia.
    + destruct (d =? 125); [|discriminate].
      injection H as _ <-. simpl in *; lia.
Qed.

(** With fuel above twice the length of the text, no parser runs out. *)
Lemma parse_fuel fuel :
  (forall s, (2 * List.length s + 1 <= fuel)%nat -> parseValue fuel s <> OutOfFuel) /\
  (forall s, (2 * List.length s + 2 <= fuel)%nat -> parseElements fuel s <> OutOfFuel) /\
  (forall s, (2 * List.length s + 2 <= fuel)%nat -> parseMembers fuel s <> OutOfFuel).
Proof.
  induction fuel as [|fuel (IHv & IHe & IHm)].
  { repeat split; intros; lia. }
  repeat split.
  - intros s Hf H. cbn [parseValue parseElements parseMembers] in H.
    destruct s as [|c s']; [discriminate|]. simpl in Hf.
    destruct (c =? 123).
    { pose proof (skipSpace_length s') as Hsk.
      destruct (skipSpace s') as [|d t]; [discriminate|].
      destruct (d =? 125); [discriminate|].
      destruct (parseMembers fuel (d :: t)) eqn:E; try discriminate.
      revert E. apply IHm. simpl in *; lia. }
    destruct (c =? 91).
    { pose proof (skipSpace_length s') as Hsk.
      destruct (skipSpace s') as [|d t]; [discriminate|].
      destruct (d =? 93); [discriminate|].
      destruct (parseElements fuel (d :: t)) eqn:E; try discriminate.
      revert E. apply IHe. simpl in *; lia. }
    destruct (c =? 34).
    { destruct (stringChars s') as [[str rest]|]; discriminate. }
    destruct ((c =? 45) || isDigit c).
    { destruct (parseNumber (c :: s')) as [[x rest]|]; discriminate. }
    destruct (startsWith (lit "true") (c :: s')); [discriminate|].
    destruct (startsWith (lit "false") (c :: s')); [discriminate|].
    destruct (startsWith (lit "null") (c :: s')); discriminate.
  - intros s Hf H. cbn [parseValue parseElements parseMembers] in H.
    destruct (parseValue fuel s) as [v r0| |] eqn:E; try discriminate.
    + apply (proj1 (parse_progress fuel)) in E.
      pose proof (skipSpace_length r0) as Hsk.
      destruct (skipSpace r0) as [|d r']; [discriminate|].
      destruct (d =? 44).
      * pose proof (skipSpace_length r') as Hsk'.
        destruct (parseElements fuel (skipSpace r')) eqn:E'; try discriminate.
        revert E'. apply IHe. simpl in *; lia.
      * destruct (d =? 93); discriminate.
    + revert E. apply IHv. lia.
  - intros s Hf H. cbn [parseValue parseElements parseMembers] in H.
    destruct s as [|q s']; [discriminate|]. simpl in Hf.
    destruct (q =? 34); [|discriminate].
    destruct (stringChars s') as [[key r0]|] eqn:Ek; [|discriminate].
    apply stringChars_length in Ek.
    pose proof (skipSpace_length r0) as Hs0.
    destruct (skipSpace r0) as [|col r1]; [discriminate|].
    destruct (col =? 58); [|discriminate].
    pose proof (skipSpace_length r1) as Hs1.
    destruct (parseValue fuel (skipSpace r1)) as [v r2| |] eqn:E; try discriminate.
    + apply (proj1 (parse_progress fuel)) in E.
      pose proof (skipSpace_length r2) as Hs2.
      destruct (skipSpace r2) as [|d r']; [discriminate|].
      destruct (d =? 44).
      * pose proof (skipSpace_length r') as Hsk'.
        destruct (parseMembers fuel (skipSpace r')) eqn:E'; try discriminate.
        revert E'. apply IHm. simpl in *; lia.
      * destruct (d =? 125); discriminate.
    + revert E. apply IHv. simpl in *; lia.
Qed.

(** [JSON_parse] gives its parser enough fuel: the text is read to a
    value or to a syntax error. *)
Theorem parseValue_fuel (text : jsstring) :
  parseValue (fuelFor text) (skipSpace text) <> OutOfFuel.
Proof.
  apply (proj1 (parse_fuel _)).
  pose proof (skipSpace_length text). unfold fuelFor. lia.
Qed.

(** So [JSON_parse] fails only on a syntax error or on text after the
    value. *)
Lemma JSON_parse_None (text : jsstring) :
  JSON_parse text = None ->
  parseValue (fuelFor text) (skipSpace text) = SyntaxError \/
  exists v rest c rest',
    parseValue (fuelFor text) (skipSpace text) = Parsed v rest /\
    skipSpace rest = c :: rest'.
Proof.
  unfold JSON_parse. pose proof (parseValue_fuel text) as Hf.
  destruct (parseValue (fuelFor text) (skipSpace text)) as [v rest| |];
    [|left; reflexivity|contradiction].
  destruct (skipSpace rest) as [|c rest'] eqn:E; [discriminate|].
  intros _. right. exists v, rest, c, rest'. split; [reflexivity | exact E].
Qed.

(** [JSON.parse] never gives [undefined]. *)
Lemma parseValue_defined fuel s v r :
  parseValue fuel s = Parsed v r -> v <> JUndefined.
Proof.
  destruct fuel as [|fuel]; cbn [parseValue]; [discriminate|].
  intros H.
  repeat match type of H with
         | context [match ?x with _ => _ end] => destruct x
         end;
    try discriminate H; injection H as <- _; unfold objectOf; discriminate.
Qed.

Lemma JSON_parse_defined (text : jsstring) : JSON_parse text <> Some JUndefined.
Proof.
  unfold JSON_parse.
  destruct (parseValue (fuelFor text) (skipSpace text)) as [v rest| |] eqn:E;
    try discriminate.
  destruct (skipSpace rest); [|discriminate].
  intros H. injection H as ->. exact (parseValue_defined _ _ _ _ E eq_refl).
Qed.

End JsonFacts.

(** ** The cleanup of the repair parse *)

Module CleanupFacts.
Import JsString Json Completion External Pipeline JsStringFacts.

Lemma collapseSpaces_inRun s :
  collapseSpaces true s = collapseSpaces false (dropWhile isWhiteSpace s).
Proof.
  induction s as [|c s IH]; simpl; [reflexivity|].
  destruct (isWhiteSpace c) eqn:W; [exact IH|].
  simpl. rewrite W. reflexivity.
Qed.

Lemma normalizeSpaces_collapse s :
  normalizeSpaces s = collapseSpaces false s.
Proof.
  unfold normalizeSpaces, replaceAll.
  remember (List.length s) as n eqn:Hn.
  assert (Hle : (List.length s <= n)%nat) by lia. clear Hn.
  revert s Hle; induction n as [|n IH]; intros [|c s'] Hle; simpl in *;
    try reflexivity; try lia.
  unfold matchSpaces; simpl.
  destruct (isWhiteSpace c) eqn:W.
  - simpl. rewrite replaceFrom_takeWhile, collapseSpaces_inRun.
    f_equal. apply IH.
    pose proof (dropWhile_length isWhiteSpace s'). lia.
  - f_equal. apply IH. lia.
Qed.

Lemma replaceSmartQuotes_map s : replaceSmartQuotes s = map plainQuote s.
Proof. apply replaceAll_class_map. Qed.

Lemma removeNewlines_filter s : removeNewlines s = filter notLineBreak s.
Proof. apply replaceAll_class_filter. Qed.

(** The cleanup of the source is the cleanup of the specification. *)
Lemma repair_cleanup_refines content : cleaned content = cleanupSpec content.
Proof.
  unfold cleaned, cleanupSpec.
  rewrite normalizeSpaces_collapse, removeNewlines_filter, replaceSmartQuotes_map.
  reflexivity.
Qed.

End CleanupFacts.

(** ** Replies with a key in curly quotes *)

Module QuotedKeyFacts.
Import JsString JsNumber Json Completion External Pipeline Fixtures.
Import JsStringFacts JsonFacts CleanupFacts.







(** *** The cleanup on a reply free of fences and white space *)

Lemma forallb_dropWhile (q p : char16 -> bool) s :
  forallb q s = true -> forallb q (dropWhile p s) = true.
Proof.
  induction s as [|c s IH]; simpl; [reflexivity|].
  rewrite andb_true_iff. intros [Hc Hs].
  destruct (p c); [exact (IH Hs) | simpl; rewrite Hc, Hs; reflexivity].
Qed.














End QuotedKeyFacts.

(** ** White space: trim and the collapsing of runs *)

Module TrimFacts.
Import JsString Json Completion External Pipeline Fixtures Shapes.
Import JsStringFacts CleanupFacts QuotedKeyFacts.

Lemma dropWhile_all p s : forallb p s = true -> dropWhile p s = [].
Proof.
  induction s as [|c s IH]; simpl; [reflexivity|].
  rewrite andb_true_iff. intros [Hc Hs]. rewrite Hc. exact (IH Hs).
Qed.

Lemma dropWhile_app_all p w s :
  forallb p w = true -> dropWhile p (w ++ s) = dropWhile p s.
Proof.
  induction w as [|c w IH]; simpl; [reflexivity|].
  rewrite andb_true_iff. intros [Hc Hw]. rewrite Hc. exact (IH Hw).
Qed.

Lemma forallb_rev (p : char16 -> bool) s : forallb p (rev s) = forallb p s.
Proof.
  induction s as [|c s IH]; simpl; [reflexivity|].
  rewrite forallb_app, IH. simpl. rewrite andb_true_r. apply andb_comm.
Qed.

Lemma dropWhile_solid s : startsSolid s = true -> dropWhile isWhiteSpace s = s.
Proof.
  destruct s as [|c s]; simpl; [discriminate|].
  intros H. apply negb_true_iff in H. rewrite H. reflexivity.
Qed.

(** White space around a token is trimmed away, and nothing else. *)
Lemma trim_padded before core after :
  forallb isWhiteSpace before = true -> forallb isWhiteSpace after = true ->
  startsSolid core = true -> startsSolid (rev core) = true ->
  trim (padded before core after) = core.
Proof.
  intros Hb Ha Hs He. unfold trim, trimStart, trimEnd, padded.
  rewrite (dropWhile_app_all _ _ _ Hb).
  assert (Hd : dropWhile isWhiteSpace (core ++ after) = core ++ after).
  { destruct core as [|c core]; [discriminate Hs|].
    apply (dropWhile_solid ((c :: core) ++ after)). exact Hs. }
  rewrite Hd, rev_app_distr.
  rewrite (dropWhile_app_all _ (rev after) _) by (rewrite forallb_rev; exact Ha).
  rewrite (dropWhile_solid _ He). apply rev_involutive.
Qed.

Lemma plainQuote_notSmart c : isSmartQuote (plainQuote c) = false.
Proof.
  unfold plainQuote. destruct (isSmartQuote c) eqn:E; [reflexivity | exact E].
Qed.

Lemma forallb_filter (p q : char16 -> bool) s :
  forallb p s = true -> forallb p (filter q s) = true.
Proof.
  induction s as [|c s IH]; simpl; [reflexivity|].
  rewrite andb_true_iff. intros [Hc Hs].
  destruct (q c); simpl; [rewrite Hc|]; exact (IH Hs).
Qed.

Lemma collapseSpaces_cleanChar b s :
  forallb (fun c => negb (isSmartQuote c)) s = true ->
  forallb cleanChar (collapseSpaces b s) = true.
Proof.
  revert b. induction s as [|c s IH]; intros b; simpl; [reflexivity|].
  rewrite andb_true_iff. intros [Hc Hs].
  destruct (isWhiteSpace c) eqn:W.
  - destruct b; [exact (IH true Hs)|].
    simpl. exact (IH true Hs).
  - simpl. unfold cleanChar at 1. rewrite Hc, W. simpl. exact (IH false Hs).
Qed.

Lemma collapseSpaces_spacing b s :
  singleSpaced (collapseSpaces b s) = true /\
  (b = true -> headSolid (collapseSpaces b s) = true).
Proof.
  revert b. induction s as [|c s IH]; intros b; [split; reflexivity|].
  cbn [collapseSpaces].
  destruct (isWhiteSpace c) eqn:W.
  - destruct b.
    + exact (IH true).
    + split; [|discriminate].
      destruct (IH true) as [H1 H2]. specialize (H2 eq_refl).
      cbn [singleSpaced]. rewrite H1.
      destruct (collapseSpaces true s) as [|d t]; [reflexivity|].
      cbn [headSolid] in H2. apply negb_true_iff in H2. rewrite H2.
      reflexivity.
  - destruct (IH false) as [H1 _].
    split; [|intros _; cbn [headSolid]; rewrite W; reflexivity].
    cbn [singleSpaced]. rewrite W, H1.
    destruct (collapseSpaces false s); reflexivity.
Qed.

Lemma singleSpaced_tail c s : singleSpaced (c :: s) = true -> singleSpaced s = true.
Proof.
  cbn [singleSpaced]. rewrite !andb_true_iff. tauto.
Qed.

Lemma singleSpaced_dropWhile p s :
  singleSpaced s = true -> singleSpaced (dropWhile p s) = true.
Proof.
  induction s as [|c s IH]; [reflexivity|].
  intros H. cbn [dropWhile]. destruct (p c); [|exact H].
  apply IH. exact (singleSpaced_tail _ _ H).
Qed.

Lemma singleSpaced_app_l a b :
  singleSpaced (a ++ b) = true -> singleSpaced a = true.
Proof.
  induction a as [|c a IH]; [reflexivity|].
  cbn [app singleSpaced]. rewrite !andb_true_iff. intros [[H1 H2] H3].
  repeat split; [exact H1 | | exact (IH H3)].
  destruct a as [|d a]; [reflexivity | exact H2].
Qed.

(** [trimEnd] cuts a suffix off. *)
Lemma trimEnd_prefix s : exists w, s = trimEnd s ++ w.
Proof.
  unfold trimEnd. exists (rev (takeWhile isWhiteSpace (rev s))).
  rewrite <- rev_app_distr.
  assert (H : forall t, takeWhile isWhiteSpace t ++ dropWhile isWhiteSpace t = t).
  { induction t as [|c t IH]; simpl; [reflexivity|].
    destruct (isWhiteSpace c); simpl; [rewrite IH|]; reflexivity. }
  rewrite H, rev_involutive. reflexivity.
Qed.

Lemma dropWhile_headSolid s : headSolid (dropWhile isWhiteSpace s) = true.
Proof.
  induction s as [|c s IH]; [reflexivity|].
  cbn [dropWhile]. destruct (isWhiteSpace c) eqn:W; [exact IH|].
  cbn [headSolid]. rewrite W. reflexivity.
Qed.

Lemma trim_trimmed s : trimmed (trim s) = true.
Proof.
  unfold trimmed.
  destruct (trim s) as [|c r] eqn:E; [reflexivity|].
  apply andb_true_iff. split.
  - unfold trim in E.
    destruct (trimEnd_prefix (trimStart s)) as [w Hw].
    rewrite E in Hw.
    pose proof (dropWhile_headSolid s) as Hh.
    fold (trimStart s) in Hh. rewrite Hw in Hh. exact Hh.
  - rewrite <- E. unfold trim, trimEnd. rewrite rev_involutive.
    pose proof (dropWhile_headSolid (rev (trimStart s))) as Hh.
    destruct (dropWhile isWhiteSpace (rev (trimStart s))) as [|d t] eqn:Ed.
    + unfold trim, trimEnd in E. rewrite Ed in E. discriminate E.
    + exact Hh.
Qed.

Lemma trim_preserves (p : char16 -> bool) s :
  forallb p s = true -> forallb p (trim s) = true.
Proof.
  intros H. unfold trim.
  destruct (trimEnd_prefix (trimStart s)) as [w Hw].
  assert (Hs : forallb p (trimStart s) = true) by (apply forallb_dropWhile; exact H).
  rewrite Hw, forallb_app in Hs. apply andb_true_iff in Hs as [Hs _]. exact Hs.
Qed.

Lemma trim_singleSpaced s : singleSpaced s = true -> singleSpaced (trim s) = true.
Proof.
  intros H. unfold trim.
  destruct (trimEnd_prefix (trimStart s)) as [w Hw].
  assert (Hs : singleSpaced (trimStart s) = true)
    by (apply singleSpaced_dropWhile; exact H).
  rewrite Hw in Hs. exact (singleSpaced_app_l _ _ Hs).
Qed.

Lemma cleanChar_spec c :
  cleanChar c = true ->
  isSmartQuote c = false /\ isLineBreak c = false /\ (isWhiteSpace c = true -> c = 32).
Proof.
  unfold cleanChar. rewrite andb_true_iff, negb_true_iff, orb_true_iff, negb_true_iff.
  intros [H1 H2]. split; [exact H1|]. split.
  - unfold isLineBreak. destruct H2 as [H2 | H2].
    + unfold isWhiteSpace in H2. rewrite !orb_false_iff in H2.
      apply orb_false_iff. tauto.
    + apply N.eqb_eq in H2. subst c. reflexivity.
  - intros W. destruct H2 as [H2 | H2]; [congruence | apply N.eqb_eq; exact H2].
Qed.














End TrimFacts.

(** ** The synthesizer *)

Module SynthesizerFacts.
Import JsString JsNumber Json Completion External Pipeline Fixtures JsStringFacts.

(** What [buildResponse] accepts: an object whose own [answer] is truthy;
    the record is then assembled from that object's properties. *)
Lemma buildResponse_Normal p r :
  buildResponse p = Normal r ->
  exists props a,
    p = JObj props /\ lookup (lit "answer") props = Some a /\ truthy a = true /\
    r = technicalWithDocs a (lookup (lit "confidence") props)
                            (lookup (lit "sourcesUsed") props)
                            (lookup (lit "relevantDocs") props).
Proof.
  unfold buildResponse.
  destruct p as [| b | x | s | items | props |]; cbn -[lit technicalWithDocs];
    try discriminate.
  destruct (lookup (lit "answer") props) as [a|] eqn:Ha; cbn -[lit technicalWithDocs];
    [|discriminate].
  destruct (truthy a) eqn:Ht; cbn -[lit technicalWithDocs]; [|discriminate].
  intros H; injection H as <-.
  exists props, a. repeat split; assumption.
Qed.

(** Without a truthy [answer] the required-field check throws. *)
Lemma buildResponse_Throw p :
  (forall a, member p (lit "answer") = Normal (Some a) -> truthy a = false) ->
  exists e, buildResponse p = Throw e.
Proof.
  intros H. unfold buildResponse.
  destruct p as [| b | x | s | items | props |]; cbn -[lit technicalWithDocs] in *;
    try (eexists; reflexivity).
  destruct (lookup (lit "answer") props) as [a|] eqn:Ha; cbn -[lit technicalWithDocs];
    [|eexists; reflexivity].
  rewrite (H a eq_refl). cbn -[lit]. eexists; reflexivity.
Qed.

(** The synthesizer always returns: the assembled record, or the static
    TECHNICAL_NO_DOCS response. *)
Lemma handleTechnicalWithDocs_cases svc query context :
  handleTechnicalWithDocs svc query context = Normal handleTechnicalNoDocs \/
  exists a c s d,
    truthy a = true /\
    handleTechnicalWithDocs svc query context = Normal (technicalWithDocs a c s d).
Proof.
  unfold handleTechnicalWithDocs.
  destruct (model_invoke svc _) as [reply|e]; cbn [bind tryCatch ret]; [|left; reflexivity].
  destruct (parseResponse reply) as [p|e]; cbn [bind tryCatch ret]; [|left; reflexivity].
  destruct (buildResponse p) as [r|e] eqn:Hb; cbn [tryCatch ret]; [|left; reflexivity].
  apply buildResponse_Normal in Hb as (props & a & _ & _ & Ht & ->).
  right. do 4 eexists. split; [exact Ht | reflexivity].
Qed.

(** How the synthesizer's result follows from the reply's parse. *)
Lemma handleTechnicalWithDocs_reply svc query context reply :
  model_invoke svc [systemPrompt; userPrompt query context] = Normal reply ->
  handleTechnicalWithDocs svc query context =
  tryCatch (bind (parseResponse reply) buildResponse)
           (fun _ => Normal handleTechnicalNoDocs).
Proof.
  intros H. unfold handleTechnicalWithDocs. rewrite H. reflexivity.
Qed.

Lemma technicalWithDocs_type a c s d :
  field "type" (technicalWithDocs a c s d) = Some (JStr (lit "TECHNICAL_WITH_DOCS")).
Proof. reflexivity. Qed.

Lemma technicalWithDocs_answer a c s d :
  field "answer" (technicalWithDocs a c s d) = Some a.
Proof. reflexivity. Qed.

(** The dispatcher always returns one of the four responses. *)
Lemma handleQuery_cases svc query queryType context :
  handleQuery svc query queryType context = Normal handleTechnicalNoDocs \/
  handleQuery svc query queryType context = Normal handleBilling \/
  handleQuery svc query queryType context = Normal handleIrrelevant \/
  exists a c s d,
    truthy a = true /\
    handleQuery svc query queryType context = Normal (technicalWithDocs a c s d).
Proof.
  unfold handleQuery.
  destruct (eqb queryType (lit "TECHNICAL_WITH_DOCS")).
  { destruct (handleTechnicalWithDocs_cases svc query context) as [H | H];
      [left; exact H | right; right; right; exact H]. }
  destruct (eqb queryType (lit "TECHNICAL_NO_DOCS")); [left; reflexivity|].
  destruct (eqb queryType (lit "BILLING")); [right; left; reflexivity|].
  destruct (eqb queryType (lit "IRRELEVANT")); right; right; left; reflexivity.
Qed.

Lemma handleQuery_tagged svc query queryType context :
  exists r t,
    handleQuery svc query queryType context = Normal r /\
    field "type" r = Some (JStr t) /\
    In t [lit "TECHNICAL_WITH_DOCS"; lit "TECHNICAL_NO_DOCS"; lit "BILLING"; lit "IRRELEVANT"].
Proof.
  destruct (handleQuery_cases svc query queryType context)
    as [H | [H | [H | (a & c & s & d & _ & H)]]]; rewrite H;
    do 2 eexists; (split; [reflexivity|]); (split; [reflexivity|]);
    cbn -[lit]; tauto.
Qed.

End SynthesizerFacts.

(** ** The claims of the specification *)

Module PipelineSpec.
Import JsString JsNumber Json Completion External Pipeline Fixtures.
Import Shapes.
Import JsStringFacts CleanupFacts QuotedKeyFacts TrimFacts SynthesizerFacts.

(** *** The entry point *)

(** What the entry point does with what its try block throws. *)
Lemma askQuestion_thrown upperTable svc query e :
  thrownInTry upperTable svc query e ->
  askQuestion upperTable svc query =
  bind (getMessage e) (fun _ => Normal (errorResponse e)).
Proof.
  unfold askQuestion. intros [H | (context & H1 & H2)].
  - rewrite H. reflexivity.
  - rewrite H1. cbn [bind]. rewrite H2. reflexivity.
Qed.

(** When nothing is thrown the entry point returns the dispatcher's
    record. *)
Lemma askQuestion_not_thrown upperTable svc query context queryType :
  getRelevantDocuments svc query = Normal context ->
  classifyQuery upperTable svc query context = Normal queryType ->
  askQuestion upperTable svc query = handleQuery svc query queryType context.
Proof.
  intros H1 H2. unfold askQuestion. rewrite H1. cbn [bind]. rewrite H2. cbn [bind].
  destruct (handleQuery_tagged svc query queryType context) as (r & _ & H & _).
  rewrite H. reflexivity.
Qed.

(** Either something is thrown in the try block or the dispatcher is
    reached. *)
Lemma askQuestion_try upperTable svc query :
  (exists e, thrownInTry upperTable svc query e) \/
  exists context queryType,
    getRelevantDocuments svc query = Normal context /\
    classifyQuery upperTable svc query context = Normal queryType.
Proof.
  unfold thrownInTry.
  destruct (getRelevantDocuments svc query) as [context|e] eqn:H1.
  2:{ left. exists e. left. reflexivity. }
  destruct (classifyQuery upperTable svc query context) as [queryType|e] eqn:H2.
  - right. exists context, queryType. split; [reflexivity | exact H2].
  - left. exists e. right. exists context. split; [reflexivity | exact H2].
Qed.

(** C1 (the code at the failing input): when the vector store rejects
    with undefined, or with null, the catch block of [askQuestion]
    throws the TypeError of reading [message] off that value, and
    [askQuestion] raises instead of returning the ERROR payload; so it
    does when the relevance chain rejects with undefined.  When what is
    thrown has no message (a thrown string, say) the payload's [error]
    is undefined.  In general [askQuestion] returns a record with one of
    the five tags unless its try block throws undefined or null, and then
    it raises. *)
Theorem askQuestion_raises_on_nullish_throw :
  (askQuestion asciiOnlyTable (unreachableStore ThrownUndefined)
               (lit "How do I reset my password?") =
   Throw (mkError (lit "Cannot read properties of undefined (reading 'message')")) /\
   askQuestion asciiOnlyTable (unreachableStore ThrownNull)
               (lit "How do I reset my password?") =
   Throw (mkError (lit "Cannot read properties of null (reading 'message')")) /\
   askQuestion asciiOnlyTable
               (mkServices (Normal tt) (fun _ _ => Normal [])
                           (fun _ => Normal []) (fun _ _ => Throw ThrownUndefined)
                           (fun _ => Normal []))
               (lit "How do I reset my password?") =
   Throw (mkError (lit "Cannot read properties of undefined (reading 'message')"))) /\
  (exists r,
      askQuestion asciiOnlyTable (unreachableStore (ThrownValue JUndefined))
                  (lit "How do I reset my password?") = Normal r /\
      field "type" r = Some (JStr (lit "ERROR")) /\
      field "error" r = Some JUndefined) /\
  (forall upperTable svc query,
      (exists r t,
          askQuestion upperTable svc query = Normal r /\
          field "type" r = Some (JStr t) /\ In t responseTags) \/
      (exists e te,
          thrownInTry upperTable svc query e /\ isNullish e = true /\
          getMessage e = Throw te /\
          askQuestion upperTable svc query = Throw te)).
Proof.
  split; [repeat split|split].
  - eexists. split; [reflexivity|]. split; reflexivity.
  - intros upperTable svc query.
    destruct (askQuestion_try upperTable svc query)
      as [(e & He) | (context & queryType & H1 & H2)].
    + rewrite (askQuestion_thrown _ _ _ _ He).
      destruct e as [| | msg].
      * right. exists ThrownUndefined. eexists.
        split; [exact He|]. split; [reflexivity|]. split; reflexivity.
      * right. exists ThrownNull. eexists.
        split; [exact He|]. split; [reflexivity|]. split; reflexivity.
      * left. exists (errorResponse (ThrownValue msg)), (lit "ERROR").
        repeat split. cbn -[lit]; tauto.
    + left. rewrite (askQuestion_not_thrown _ _ _ _ _ H1 H2).
      destruct (handleQuery_tagged svc query queryType context) as (r & t & H & Ht & Hin).
      exists r, t. repeat split; [exact H | exact Ht|].
      cbn -[lit] in *; tauto.
Qed.

(** *** The repair parse *)



(** *** Defaults *)

(** C3: a reply parsed to the object with the single field answer = x
    gives confidence 0.95, sourcesUsed 1, relevantDocs [] and type
    TECHNICAL_WITH_DOCS.  For every reply the synthesizer accepts, the
    record's type, priority and responseTime are the fixed literals
    whatever the reply carried, and confidence, sourcesUsed and
    relevantDocs are the reply's when they are a number, a number and an
    array, and the defaults otherwise. *)
Theorem synthesizer_fills_defaults :
  (JSON_parse (litq "{'answer':'x'}") = Some (JObj [(lit "answer", JStr (lit "x"))]) /\
   exists r,
     buildResponse (JObj [(lit "answer", JStr (lit "x"))]) = Normal r /\
     field "answer" r = Some (JStr (lit "x")) /\
     field "confidence" r = Some (JNum (ofDecimal false 95 (-2))) /\
     field "sourcesUsed" r = Some (JNum (ofDecimal false 1 0)) /\
     field "relevantDocs" r = Some (JArr []) /\
     field "type" r = Some (JStr (lit "TECHNICAL_WITH_DOCS"))) /\
  (forall svc query context reply parsedResponse r,
      model_invoke svc [systemPrompt; userPrompt query context] = Normal reply ->
      parseResponse reply = Normal parsedResponse ->
      buildResponse parsedResponse = Normal r ->
      handleTechnicalWithDocs svc query context = Normal r /\
      field "type" r = Some (JStr (lit "TECHNICAL_WITH_DOCS")) /\
      field "priority" r = Some (JStr (lit "HIGH - Documentation Available")) /\
      field "responseTime" r =
        Some (JStr (lit "Immediate - Using Available Documentation")) /\
      field "confidence" r =
        Some (JNum (numberOr (field "confidence" parsedResponse) (ofDecimal false 95 (-2)))) /\
      field "sourcesUsed" r =
        Some (JNum (numberOr (field "sourcesUsed" parsedResponse) (ofDecimal false 1 0))) /\
      field "relevantDocs" r =
        Some (JArr (arrayOr (field "relevantDocs" parsedResponse)))).
Proof.
  split.
  - split; [vm_compute; reflexivity|].
    eexists. split; [reflexivity|]. vm_compute. repeat split.
  - intros svc query context reply p r Hm Hp Hb.
    split.
    { rewrite (handleTechnicalWithDocs_reply _ _ _ _ Hm), Hp. cbn [bind].
      rewrite Hb. reflexivity. }
    apply buildResponse_Normal in Hb as (props & a & -> & _ & _ & ->).
    repeat split.
Qed.

Lemma synthesizer_fills_defaults_witness :
  field "type"
    (technicalWithDocs (JStr (lit "x")) None None None) =
  Some (JStr (lit "TECHNICAL_WITH_DOCS")).
Proof.
  apply (proj2 synthesizer_fills_defaults
           (cannedServices [] (Normal []) (Normal []) (Normal (litq "{'answer':'x','type':'BILLING'}")))
           [] [] (litq "{'answer':'x','type':'BILLING'}")
           (JObj [(lit "answer", JStr (lit "x")); (lit "type", JStr (lit "BILLING"))])
           (technicalWithDocs (JStr (lit "x")) None None None));
    vm_compute; reflexivity.
Defined.


(** *** The required field *)

(** C4: when reading [answer] off the parsed reply gives no value (the
    field is absent), the synthesizer does not throw: it returns the
    static TECHNICAL_NO_DOCS response; so it does when both parse
    attempts fail; so it does for the reply with confidence 0.8 and no
    answer. *)
Theorem missing_answer_falls_back (svc : Services) (query context reply : jsstring)
        (Hreply : model_invoke svc [systemPrompt; userPrompt query context] = Normal reply) :
  (forall parsedResponse,
      parseResponse reply = Normal parsedResponse ->
      (forall a, member parsedResponse (lit "answer") <> Normal (Some a)) ->
      handleTechnicalWithDocs svc query context = Normal handleTechnicalNoDocs) /\
  (JSON_parse reply = None -> JSON_parse (cleaned reply) = None ->
   handleTechnicalWithDocs svc query context = Normal handleTechnicalNoDocs) /\
  (reply = litq "{'confidence':0.8}" ->
   handleTechnicalWithDocs svc query context = Normal handleTechnicalNoDocs).
Proof.
  rewrite (handleTechnicalWithDocs_reply _ _ _ _ Hreply).
  repeat split.
  - intros p Hp Hno. rewrite Hp. cbn [bind].
    destruct (buildResponse_Throw p) as [e ->]; [|reflexivity].
    intros a Ha. exfalso. exact (Hno a Ha).
  - intros H1 H2. unfold parseResponse, JSON_parse_c. rewrite H1.
    cbn [tryCatch throwError]. rewrite H2. reflexivity.
  - intros ->. vm_compute. reflexivity.
Qed.

Lemma missing_answer_falls_back_witness :
  handleTechnicalWithDocs
    (cannedServices [] (Normal []) (Normal []) (Normal (litq "{'confidence':0.8}")))
    (lit "How do I reset my password?") (lit "Open Settings.") =
  Normal handleTechnicalNoDocs.
Proof.
  apply (proj2 (proj2 (missing_answer_falls_back
           (cannedServices [] (Normal []) (Normal []) (Normal (litq "{'confidence':0.8}")))
           (lit "How do I reset my password?") (lit "Open Settings.")
           (litq "{'confidence':0.8}") eq_refl))).
  reflexivity.
Defined.

(** *** The numeric field *)

(** C5 (the code at the failing input): a reply with answer x and
    confidence 5 is accepted, and the record returned - by the
    synthesizer and by the pipeline - carries confidence 5, outside
    [0, 1]; the schema of rag.js bounds the field by 0 and 1 but is never
    applied. *)
Theorem confidence_not_bounded (query context : jsstring) :
  let reply := litq "{'answer':'x','confidence':5}" in
  let svc := cannedServices [context] (Normal (lit "YES")) (Normal (lit "IRRELEVANT"))
                            (Normal reply) in
  exists r,
    handleTechnicalWithDocs svc query context = Normal r /\
    askQuestion asciiOnlyTable svc query = Normal r /\
    field "type" r = Some (JStr (lit "TECHNICAL_WITH_DOCS")) /\
    field "confidence" r = Some (JNum (ofDecimal false 5 0)) /\
    inUnitInterval (ofDecimal false 5 0) = false.
Proof.
  intros reply svc.
  exists (technicalWithDocs (JStr (lit "x")) (Some (JNum (ofDecimal false 5 0))) None None).
  repeat split.
Qed.

(** *** The intent classifier *)

(** C6, as the specification states it, fails: when the relevance gate
    says NO and the classifier's reply is maybe, a token that is none of
    the three categories, [classifyQuery] returns MAYBE and not
    IRRELEVANT. *)
Lemma classify_returns_raw_token :
  let svc := cannedServices [] (Normal (lit "NO")) (Normal (lit "maybe")) (Normal []) in
  let query := lit "What is the weather?" in
  (checkDocumentRelevance asciiOnlyTable svc query [] = Normal false /\
   classificationChain_invoke svc query = Normal (lit "maybe") /\
   ~ In (toUpperCase asciiOnlyTable (trim (lit "maybe")))
        [lit "TECHNICAL_NO_DOCS"; lit "BILLING"; lit "IRRELEVANT"] /\
   classifyQuery asciiOnlyTable svc query [] = Normal (lit "MAYBE") /\
   classifyQuery asciiOnlyTable svc query [] <> Normal (lit "IRRELEVANT")) /\
  ~ (forall (upperTable : N -> list N) (svc : Services) (query context reply : jsstring),
        checkDocumentRelevance upperTable svc query context = Normal false ->
        classificationChain_invoke svc query = Normal reply ->
        ~ In (toUpperCase upperTable (trim reply))
             [lit "TECHNICAL_NO_DOCS"; lit "BILLING"; lit "IRRELEVANT"] ->
        classifyQuery upperTable svc query context = Normal (lit "IRRELEVANT")).
Proof.
  intros svc query.
  assert (Hn : ~ In (toUpperCase asciiOnlyTable (trim (lit "maybe")))
                    [lit "TECHNICAL_NO_DOCS"; lit "BILLING"; lit "IRRELEVANT"]).
  { vm_compute. intros [E | [E | [E | []]]]; discriminate E. }
  assert (Hd : classifyQuery asciiOnlyTable svc query [] <> Normal (lit "IRRELEVANT")).
  { vm_compute. intros E; discriminate E. }
  split.
  - repeat split; try assumption.
  - intros H. apply Hd.
    exact (H asciiOnlyTable svc query [] (lit "maybe") eq_refl eq_refl Hn).
Qed.

(** C6, amended: when the relevance gate says no, [classifyQuery]
    returns the classifier's reply trimmed and upper-cased, whatever it
    is; the default is the dispatcher's: for a token that is none of the
    four tags it dispatches on, [handleQuery] returns the IRRELEVANT
    response, and so does the pipeline. *)
Theorem unrecognized_token_defaults_in_dispatch
        (upperTable : N -> list N) (svc : Services) (query context reply : jsstring)
        (Hctx : getRelevantDocuments svc query = Normal context)
        (Hgate : checkDocumentRelevance upperTable svc query context = Normal false)
        (Hreply : classificationChain_invoke svc query = Normal reply) :
  let token := toUpperCase upperTable (trim reply) in
  classifyQuery upperTable svc query context = Normal token /\
  (~ In token [lit "TECHNICAL_WITH_DOCS"; lit "TECHNICAL_NO_DOCS";
               lit "BILLING"; lit "IRRELEVANT"] ->
   handleQuery svc query token context = Normal handleIrrelevant /\
   askQuestion upperTable svc query = Normal handleIrrelevant /\
   field "type" handleIrrelevant = Some (JStr (lit "IRRELEVANT"))).
Proof.
  intros token.
  assert (Hc : classifyQuery upperTable svc query context = Normal token).
  { unfold classifyQuery. rewrite Hgate. cbn [bind]. rewrite Hreply. reflexivity. }
  split; [exact Hc|].
  intros Hn.
  assert (Hh : handleQuery svc query token context = Normal handleIrrelevant).
  { unfold handleQuery.
    destruct (eqb token (lit "TECHNICAL_WITH_DOCS")) eqn:E1.
    { apply eqb_eq in E1. exfalso. apply Hn. rewrite E1. cbn -[lit]. tauto. }
    destruct (eqb token (lit "TECHNICAL_NO_DOCS")) eqn:E2.
    { apply eqb_eq in E2. exfalso. apply Hn. rewrite E2. cbn -[lit]. tauto. }
    destruct (eqb token (lit "BILLING")) eqn:E3.
    { apply eqb_eq in E3. exfalso. apply Hn. rewrite E3. cbn -[lit]. tauto. }
    destruct (eqb token (lit "IRRELEVANT")); reflexivity. }
  repeat split; [exact Hh|].
  unfold askQuestion. rewrite Hctx. cbn [bind]. rewrite Hc. cbn [bind].
  rewrite Hh. reflexivity.
Qed.

Lemma unrecognized_token_defaults_in_dispatch_witness :
  classifyQuery asciiOnlyTable
    (cannedServices [] (Normal (lit "NO")) (Normal (lit " maybe ")) (Normal []))
    (lit "What is the weather?") [] = Normal (lit "MAYBE") /\
  askQuestion asciiOnlyTable
    (cannedServices [] (Normal (lit "NO")) (Normal (lit " maybe ")) (Normal []))
    (lit "What is the weather?") = Normal handleIrrelevant.
Proof.
  pose proof (unrecognized_token_defaults_in_dispatch asciiOnlyTable
    (cannedServices [] (Normal (lit "NO")) (Normal (lit " maybe ")) (Normal []))
    (lit "What is the weather?") [] (lit " maybe ") eq_refl eq_refl eq_refl) as [Hc Hd].
  split; [exact Hc|].
  apply Hd. vm_compute. intros [E | [E | [E | [E | []]]]]; discriminate E.
Defined.

(** *** A failing model call in the synthesizer *)

(** C7, as the specification states it, fails: when retrieval succeeds,
    the gate says YES and the synthesizer's model call throws, the
    pipeline returns the static TECHNICAL_NO_DOCS response, not the ERROR
    payload. *)
Lemma synthesizer_model_failure_not_error :
  let e := mkError (lit "429 Too Many Requests") in
  let svc := cannedServices [lit "doc"] (Normal (lit "YES")) (Normal []) (Throw e) in
  let query := lit "How do I reset my password?" in
  (getRelevantDocuments svc query = Normal (lit "doc") /\
   checkDocumentRelevance asciiOnlyTable svc query (lit "doc") = Normal true /\
   model_invoke svc [systemPrompt; userPrompt query (lit "doc")] = Throw e /\
   askQuestion asciiOnlyTable svc query = Normal handleTechnicalNoDocs /\
   askQuestion asciiOnlyTable svc query <> Normal (errorResponse e) /\
   field "type" handleTechnicalNoDocs <> Some (JStr (lit "ERROR"))) /\
  ~ (forall (upperTable : N -> list N) (svc : Services) (query context : jsstring) (e : Error),
        getRelevantDocuments svc query = Normal context ->
        checkDocumentRelevance upperTable svc query context = Normal true ->
        model_invoke svc [systemPrompt; userPrompt query context] = Throw e ->
        exists r, askQuestion upperTable svc query = Normal r /\
                  field "type" r = Some (JStr (lit "ERROR"))).
Proof.
  intros e svc query.
  assert (Ha : askQuestion asciiOnlyTable svc query = Normal handleTechnicalNoDocs)
    by reflexivity.
  assert (Ht : field "type" handleTechnicalNoDocs <> Some (JStr (lit "ERROR"))).
  { vm_compute. intros E; discriminate E. }
  split.
  - repeat split; try assumption.
    rewrite Ha. vm_compute. intros E; discriminate E.
  - intros H.
    destruct (H asciiOnlyTable svc query (lit "doc") e eq_refl eq_refl eq_refl)
      as (r & Hr & Hty).
    rewrite Ha in Hr. injection Hr as <-. exact (Ht Hty).
Qed.

(** C7, amended: the synthesizer recovers from a failing model call as
    it does from malformed output: when the call throws, when the reply
    parses in neither attempt, and when the parsed reply has no truthy
    answer, it returns the static TECHNICAL_NO_DOCS response, and that is
    what the pipeline returns; none of the three surfaces as ERROR. *)
Theorem synthesizer_failures_recovered_locally
        (upperTable : N -> list N) (svc : Services) (query context : jsstring)
        (Hctx : getRelevantDocuments svc query = Normal context)
        (Hgate : checkDocumentRelevance upperTable svc query context = Normal true)
        (Hfail :
           (exists e, model_invoke svc [systemPrompt; userPrompt query context] = Throw e) \/
           (exists reply e,
               model_invoke svc [systemPrompt; userPrompt query context] = Normal reply /\
               parseResponse reply = Throw e) \/
           (exists reply parsedResponse e,
               model_invoke svc [systemPrompt; userPrompt query context] = Normal reply /\
               parseResponse reply = Normal parsedResponse /\
               buildResponse parsedResponse = Throw e)) :
  handleTechnicalWithDocs svc query context = Normal handleTechnicalNoDocs /\
  askQuestion upperTable svc query = Normal handleTechnicalNoDocs /\
  field "type" handleTechnicalNoDocs = Some (JStr (lit "TECHNICAL_NO_DOCS")).
Proof.
  assert (Hh : handleTechnicalWithDocs svc query context = Normal handleTechnicalNoDocs).
  { unfold handleTechnicalWithDocs.
    destruct Hfail as [(e & He) | [(reply & e & Hm & Hp) | (reply & p & e & Hm & Hp & Hb)]].
    - rewrite He. reflexivity.
    - rewrite Hm. cbn [bind]. rewrite Hp. reflexivity.
    - rewrite Hm. cbn [bind]. rewrite Hp. cbn [bind]. rewrite Hb. reflexivity. }
  repeat split; [exact Hh|].
  unfold askQuestion. rewrite Hctx. cbn [bind].
  unfold classifyQuery. rewrite Hgate. cbn [bind ret].
  unfold handleQuery. cbn [eqb]. rewrite eqb_refl. rewrite Hh. reflexivity.
Qed.

Lemma synthesizer_failures_recovered_locally_witness :
  askQuestion asciiOnlyTable
    (cannedServices [lit "doc"] (Normal (lit "YES")) (Normal [])
                    (Throw (mkError (lit "429 Too Many Requests"))))
    (lit "q") = Normal handleTechnicalNoDocs.
Proof.
  apply (synthesizer_failures_recovered_locally asciiOnlyTable
    (cannedServices [lit "doc"] (Normal (lit "YES")) (Normal [])
                    (Throw (mkError (lit "429 Too Many Requests"))))
    (lit "q") (lit "doc") eq_refl eq_refl).
  left. exists (mkError (lit "429 Too Many Requests")). reflexivity.
Defined.


(** *** The relevant path *)

(** C8: when the relevance classifier returns true, the pipeline returns
    what the synthesizer returns.  When synthesis succeeds - the model
    call returns, the reply parses and carries an answer - that is the
    assembled record, of type TECHNICAL_WITH_DOCS; when synthesis fails at
    any of these steps it is the static response, of type
    TECHNICAL_NO_DOCS.  The type is never BILLING or IRRELEVANT. *)
Theorem relevant_query_gets_technical_response
        (upperTable : N -> list N) (svc : Services) (query context : jsstring)
        (Hctx : getRelevantDocuments svc query = Normal context)
        (Hgate : checkDocumentRelevance upperTable svc query context = Normal true) :
  (forall reply parsedResponse r,
      model_invoke svc [systemPrompt; userPrompt query context] = Normal reply ->
      parseResponse reply = Normal parsedResponse ->
      buildResponse parsedResponse = Normal r ->
      askQuestion upperTable svc query = Normal r /\
      field "type" r = Some (JStr (lit "TECHNICAL_WITH_DOCS"))) /\
  ((exists e, model_invoke svc [systemPrompt; userPrompt query context] = Throw e) \/
   (exists reply e,
       model_invoke svc [systemPrompt; userPrompt query context] = Normal reply /\
       parseResponse reply = Throw e) \/
   (exists reply parsedResponse e,
       model_invoke svc [systemPrompt; userPrompt query context] = Normal reply /\
       parseResponse reply = Normal parsedResponse /\
       buildResponse parsedResponse = Throw e) ->
   askQuestion upperTable svc query = Normal handleTechnicalNoDocs /\
   field "type" handleTechnicalNoDocs = Some (JStr (lit "TECHNICAL_NO_DOCS"))) /\
  (exists r t,
      askQuestion upperTable svc query = Normal r /\
      handleTechnicalWithDocs svc query context = Normal r /\
      field "type" r = Some (JStr t) /\
      (t = lit "TECHNICAL_WITH_DOCS" \/
       t = lit "TECHNICAL_NO_DOCS" /\ r = handleTechnicalNoDocs) /\
      t <> lit "BILLING" /\ t <> lit "IRRELEVANT").
Proof.
  assert (Ha : askQuestion upperTable svc query =
               handleTechnicalWithDocs svc query context).
  { rewrite (askQuestion_not_thrown upperTable svc query context
               (lit "TECHNICAL_WITH_DOCS") Hctx).
    - unfold handleQuery. rewrite eqb_refl. reflexivity.
    - unfold classifyQuery. rewrite Hgate. reflexivity. }
  rewrite Ha. split; [|split].
  - intros reply p r Hm Hp Hb.
    rewrite (handleTechnicalWithDocs_reply _ _ _ _ Hm), Hp. cbn [bind].
    rewrite Hb. split; [reflexivity|].
    apply buildResponse_Normal in Hb as (props & a & _ & _ & _ & ->). reflexivity.
  - intros Hfail. split; [|reflexivity].
    unfold handleTechnicalWithDocs.
    destruct Hfail as [(e & He) | [(reply & e & Hm & Hp) | (reply & p & e & Hm & Hp & Hb)]].
    + rewrite He. reflexivity.
    + rewrite Hm. cbn [bind]. rewrite Hp. reflexivity.
    + rewrite Hm. cbn [bind]. rewrite Hp. cbn [bind]. rewrite Hb. reflexivity.
  - destruct (handleTechnicalWithDocs_cases svc query context)
      as [H | (a & c & s & d & _ & H)]; rewrite H.
    + exists handleTechnicalNoDocs, (lit "TECHNICAL_NO_DOCS").
      repeat split; try (right; split; reflexivity); intros E; discriminate E.
    + exists (technicalWithDocs a c s d), (lit "TECHNICAL_WITH_DOCS").
      repeat split; try (left; reflexivity); intros E; discriminate E.
Qed.

Lemma relevant_query_gets_technical_response_witness :
  askQuestion asciiOnlyTable
    (cannedServices [lit "To reset your password open Settings."]
                    (Normal (lit "YES")) (Normal (lit "BILLING"))
                    (Normal (litq "{'answer':'Open Settings.'}")))
    (lit "How do I reset my password?") =
  Normal (technicalWithDocs (JStr (lit "Open Settings.")) None None None) /\
  field "type" (technicalWithDocs (JStr (lit "Open Settings.")) None None None) =
  Some (JStr (lit "TECHNICAL_WITH_DOCS")).
Proof.
  apply (proj1 (relevant_query_gets_technical_response asciiOnlyTable
    (cannedServices [lit "To reset your password open Settings."]
                    (Normal (lit "YES")) (Normal (lit "BILLING"))
                    (Normal (litq "{'answer':'Open Settings.'}")))
    (lit "How do I reset my password?")
    (lit "To reset your password open Settings.") eq_refl eq_refl)
    (litq "{'answer':'Open Settings.'}")
    (JObj [(lit "answer", JStr (lit "Open Settings."))])
    (technicalWithDocs (JStr (lit "Open Settings.")) None None None));
    vm_compute; reflexivity.
Defined.

(** *** The relevance gate *)

(** C9: the gate returns true exactly when the model's reply, trimmed
    and upper-cased, is the string YES.  The empty reply, YES followed by
    a full stop, a sentence that starts with yes, and NO give false;
    yes in lower case between white space gives true. *)
Theorem relevance_gate_exact_yes
        (upperTable : N -> list N) (svc : Services) (query context reply : jsstring)
        (Hreply : relevanceChain_invoke svc query context = Normal reply) :
  (exists b,
      checkDocumentRelevance upperTable svc query context = Normal b /\
      (b = true <-> toUpperCase upperTable (trim reply) = lit "YES")) /\
  (reply = [] ->
   checkDocumentRelevance upperTable svc query context = Normal false) /\
  (reply = lit "YES." ->
   checkDocumentRelevance upperTable svc query context = Normal false) /\
  (reply = lit "yes, it is" ->
   checkDocumentRelevance upperTable svc query context = Normal false) /\
  (reply = lit "NO" ->
   checkDocumentRelevance upperTable svc query context = Normal false) /\
  (reply = [32] ++ lit "yes" ++ [10] ->
   checkDocumentRelevance upperTable svc query context = Normal true).
Proof.
  unfold checkDocumentRelevance. rewrite Hreply. cbn [bind ret].
  split; [|repeat split; intros ->; reflexivity].
  eexists. split; [reflexivity|].
  apply eqb_eq.
Qed.

Lemma relevance_gate_exact_yes_witness :
  checkDocumentRelevance asciiOnlyTable
    (cannedServices [] (Normal (lit "YES.")) (Normal []) (Normal []))
    (lit "q") [] = Normal false.
Proof.
  apply (proj1 (proj2 (proj2 (relevance_gate_exact_yes asciiOnlyTable
    (cannedServices [] (Normal (lit "YES.")) (Normal []) (Normal []))
    (lit "q") [] (lit "YES.") eq_refl)))).
  reflexivity.
Defined.

(** *** A falsy answer *)

(** C10: an answer that is falsy - the empty string, 0, null, false -
    is treated as a missing one: the synthesizer returns the static
    TECHNICAL_NO_DOCS response.  Hence every response of type
    TECHNICAL_WITH_DOCS, from the synthesizer or from the pipeline, has a
    truthy answer, in particular not the empty string. *)
Theorem falsy_answer_falls_back (svc : Services) (query context : jsstring) :
  (forall reply parsedResponse,
      model_invoke svc [systemPrompt; userPrompt query context] = Normal reply ->
      parseResponse reply = Normal parsedResponse ->
      (forall a, member parsedResponse (lit "answer") = Normal (Some a) ->
                 truthy a = false) ->
      handleTechnicalWithDocs svc query context = Normal handleTechnicalNoDocs) /\
  (forall reply,
      model_invoke svc [systemPrompt; userPrompt query context] = Normal reply ->
      In reply [litq "{'answer':''}"; litq "{'answer':0}"; litq "{'answer':null}";
                litq "{'answer':false}"; litq "{'answer':-0.0}"; litq "{'answer':1e-400}"] ->
      handleTechnicalWithDocs svc query context = Normal handleTechnicalNoDocs) /\
  (forall r,
      handleTechnicalWithDocs svc query context = Normal r ->
      field "type" r = Some (JStr (lit "TECHNICAL_WITH_DOCS")) ->
      exists a, field "answer" r = Some a /\ truthy a = true /\ a <> JStr []) /\
  (forall upperTable r,
      askQuestion upperTable svc query = Normal r ->
      field "type" r = Some (JStr (lit "TECHNICAL_WITH_DOCS")) ->
      exists a, field "answer" r = Some a /\ truthy a = true /\ a <> JStr []).
Proof.
  assert (Htwd : forall r,
    (r = handleTechnicalNoDocs \/ r = handleBilling \/ r = handleIrrelevant \/
     (exists e, r = errorResponse e) \/
     exists a c s d, truthy a = true /\ r = technicalWithDocs a c s d) ->
    field "type" r = Some (JStr (lit "TECHNICAL_WITH_DOCS")) ->
    exists a, field "answer" r = Some a /\ truthy a = true /\ a <> JStr []).
  { intros r [-> | [-> | [-> | [(e & ->) | (a & c & s & d & Ht & ->)]]]] Hty;
      try discriminate Hty.
    exists a. repeat split; [exact Ht|]. intros ->. discriminate Ht. }
  repeat split.
  - intros reply p Hm Hp Hf.
    rewrite (handleTechnicalWithDocs_reply _ _ _ _ Hm), Hp. cbn [bind].
    destruct (buildResponse_Throw p Hf) as [e ->]. reflexivity.
  - intros reply Hm Hin.
    rewrite (handleTechnicalWithDocs_reply _ _ _ _ Hm).
    cbn -[litq] in Hin.
    repeat (destruct Hin as [<- | Hin]; [vm_compute; reflexivity|]).
    destruct Hin.
  - intros r Hr. apply Htwd.
    destruct (handleTechnicalWithDocs_cases svc query context)
      as [H | (a & c & s & d & Ht & H)]; rewrite H in Hr; injection Hr as <-.
    + left; reflexivity.
    + do 4 right. exists a, c, s, d. split; [exact Ht | reflexivity].
  - intros upperTable r Hr. apply Htwd.
    unfold askQuestion in Hr.
    destruct (getRelevantDocuments svc query) as [ctx|e]; cbn [bind tryCatch ret] in Hr.
    2:{ destruct e as [| | msg]; try discriminate Hr.
        injection Hr as <-. do 3 right. left. exists (ThrownValue msg). reflexivity. }
    destruct (classifyQuery upperTable svc query ctx) as [qt|e]; cbn [bind tryCatch ret] in Hr.
    2:{ destruct e as [| | msg]; try discriminate Hr.
        injection Hr as <-. do 3 right. left. exists (ThrownValue msg). reflexivity. }
    destruct (handleQuery_cases svc query qt ctx)
      as [H | [H | [H | (a & c & s & d & Ht & H)]]]; rewrite H in Hr;
      cbn [bind tryCatch ret] in Hr; injection Hr as <-.
    + left; reflexivity.
    + right; left; reflexivity.
    + right; right; left; reflexivity.
    + do 4 right. exists a, c, s, d. split; [exact Ht | reflexivity].
Qed.

Lemma falsy_answer_falls_back_witness :
  handleTechnicalWithDocs
    (cannedServices [] (Normal []) (Normal []) (Normal (litq "{'answer':''}")))
    (lit "q") (lit "doc") = Normal handleTechnicalNoDocs.
Proof.
  apply (proj1 (proj2 (falsy_answer_falls_back
    (cannedServices [] (Normal []) (Normal []) (Normal (litq "{'answer':''}")))
    (lit "q") (lit "doc"))) (litq "{'answer':''}") eq_refl).
  cbn -[litq]. left. reflexivity.
Defined.

(** *** The scenarios of the specification *)

Example scenario_password_reset :
  exists r,
    askQuestion asciiOnlyTable
      (cannedServices [lit "To reset your password open Settings."]
                      (Normal (lit "YES")) (Normal (lit "IRRELEVANT"))
                      (Normal (litq "{'answer':'Open Settings.','confidence':0.9}")))
      (lit "How do I reset my password?") = Normal r /\
    field "type" r = Some (JStr (lit "TECHNICAL_WITH_DOCS")) /\
    field "answer" r = Some (JStr (lit "Open Settings.")) /\
    field "confidence" r = Some (JNum (ofDecimal false 9 (-1))).
Proof. eexists. split; [reflexivity|]. vm_compute. repeat split. Qed.

Example scenario_refund :
  askQuestion asciiOnlyTable
    (cannedServices [] (Normal (lit "NO")) (Normal (lit "BILLING")) (Normal []))
    (lit "Can I get a refund?") = Normal handleBilling.
Proof. reflexivity. Qed.

Example scenario_malformed_token :
  askQuestion asciiOnlyTable
    (cannedServices [] (Normal (lit "NO")) (Normal (lit "MAYBE")) (Normal []))
    (lit "What is the weather?") = Normal handleIrrelevant.
Proof. reflexivity. Qed.

(** *** The dispatcher kept in rag.js *)

(** The copy of the dispatcher in rag.js recovers from the same failures
    with a record of its own: its type is TECHNICAL_NO_DOCS and its
    contact details are those of the static response, its message is not. *)
Lemma ragHandleQuery_fallback (svc : Services) (query context : jsstring) :
  (ragHandleQuery svc query (lit "TECHNICAL_WITH_DOCS") context = Normal (Some ragFallback) \/
   exists a c s d,
     ragHandleQuery svc query (lit "TECHNICAL_WITH_DOCS") context =
     Normal (Some (technicalWithDocs a c s d)) /\
     handleTechnicalWithDocs svc query context = Normal (technicalWithDocs a c s d)) /\
  field "type" ragFallback = field "type" handleTechnicalNoDocs /\
  field "contactInfo" ragFallback = field "contactInfo" handleTechnicalNoDocs /\
  field "ticketPriority" ragFallback = field "ticketPriority" handleTechnicalNoDocs /\
  field "message" ragFallback <> field "message" handleTechnicalNoDocs.
Proof.
  split; [|repeat split; intros E; discriminate E].
  unfold ragHandleQuery, handleTechnicalWithDocs. rewrite eqb_refl.
  destruct (model_invoke svc _) as [reply|e]; cbn [bind tryCatch ret]; [|left; reflexivity].
  destruct (parseResponse reply) as [p|e]; cbn [bind tryCatch ret]; [|left; reflexivity].
  destruct (buildResponse p) as [r|e] eqn:Hb; cbn [bind tryCatch ret]; [|left; reflexivity].
  apply buildResponse_Normal in Hb as (props & a & _ & _ & _ & ->).
  right. do 4 eexists. split; reflexivity.
Qed.

(** It has no default case: for a query type that is none of the four
    tags it returns undefined, where [handleQuery] of responseService.js
    returns the IRRELEVANT response. *)
Lemma ragHandleQuery_no_default (svc : Services) (query context : jsstring) :
  ragHandleQuery svc query (lit "MAYBE") context = Normal None /\
  handleQuery svc query (lit "MAYBE") context = Normal handleIrrelevant.
Proof. split; reflexivity. Qed.

End PipelineSpec.

(** * Further properties *)

(** ** The request body: JSON.stringify, then JSON.parse *)

Module StringifyFacts.
Import JsString Json JsonStringify JsStringFacts JsonFacts.

Lemma hexDigit_hexDigitChar d : d < 16 -> hexDigit (hexDigitChar d) = Some d.
Proof.
  intros H.
  assert (Hd : d = 0 \/ d = 1 \/ d = 2 \/ d = 3 \/ d = 4 \/ d = 5 \/ d = 6 \/ d = 7 \/
               d = 8 \/ d = 9 \/ d = 10 \/ d = 11 \/ d = 12 \/ d = 13 \/ d = 14 \/ d = 15)
    by lia.
  repeat (destruct Hd as [-> | Hd]; [reflexivity|]). subst d. reflexivity.
Qed.

Lemma hex4_unicodeEscape c :
  c < 65536 ->
  hex4 (hexDigitChar (c / 4096)) (hexDigitChar ((c / 256) mod 16))
       (hexDigitChar ((c / 16) mod 16)) (hexDigitChar (c mod 16)) = Some c.
Proof.
  intros H. unfold hex4.
  assert (H1 : c / 4096 < 16) by (apply N.Div0.div_lt_upper_bound; lia).
  assert (H2 : (c / 256) mod 16 < 16) by (apply N.mod_lt; lia).
  assert (H3 : (c / 16) mod 16 < 16) by (apply N.mod_lt; lia).
  assert (H4 : c mod 16 < 16) by (apply N.mod_lt; lia).
  rewrite !hexDigit_hexDigitChar by assumption.
  f_equal.
  pose proof (N.div_mod c 16 ltac:(lia)) as E1.
  pose proof (N.div_mod (c / 16) 16 ltac:(lia)) as E2.
  pose proof (N.div_mod (c / 16 / 16) 16 ltac:(lia)) as E3.
  rewrite !N.Div0.div_div in E2, E3. 
  change (16 * 16) with 256 in *. change (256 * 16) with 4096 in *.
  assert (E4 : (c / 4096) mod 16 = c / 4096) by (apply N.mod_small; exact H1).
  rewrite N.Div0.div_div in E3. change (256 * 16) with 4096 in E3.
  lia.
Qed.


(** A code unit that is not the first half of a pair: the parser reads
    its quoted form back to it. *)
Lemma stringChars_quoteUnit c t :
  c < 65536 ->
  stringChars (quoteCodePoint c ++ t) =
  match stringChars t with
  | Some (str, rest) => Some (c :: str, rest)
  | None => None
  end.
Proof.
  intros Hc. unfold quoteCodePoint.
  destruct (N.eqb_spec c 8) as [->|N8]; [reflexivity|].
  destruct (N.eqb_spec c 9) as [->|N9]; [reflexivity|].
  destruct (N.eqb_spec c 10) as [->|N10]; [reflexivity|].
  destruct (N.eqb_spec c 12) as [->|N12]; [reflexivity|].
  destruct (N.eqb_spec c 13) as [->|N13]; [reflexivity|].
  destruct (N.eqb_spec c 34) as [->|N34]; [reflexivity|].
  destruct (N.eqb_spec c 92) as [->|N92]; [reflexivity|].
  destruct ((c <? 32) || isSurrogate c) eqn:E.
  - unfold unicodeEscape. cbn [app stringChars N.eqb Pos.eqb].
    rewrite (hex4_unicodeEscape c Hc). reflexivity.
  - apply orb_false_iff in E as [E1 _].
    unfold encodeCodePoint. rewrite (proj2 (N.ltb_lt _ _) Hc).
    cbn [app stringChars].
    rewrite (proj2 (N.eqb_neq _ _) N34), (proj2 (N.eqb_neq _ _) N92), E1.
    reflexivity.
Qed.

(** A surrogate pair is written as it is and read back as it is. *)
Lemma stringChars_quotePair hi lo t :
  isHighSurrogate hi = true -> isLowSurrogate lo = true ->
  stringChars (quoteCodePoint (65536 + (hi - 55296) * 1024 + (lo - 56320)) ++ t) =
  match stringChars t with
  | Some (str, rest) => Some (hi :: lo :: str, rest)
  | None => None
  end.
Proof.
  unfold isHighSurrogate, isLowSurrogate.
  rewrite !andb_true_iff, !N.leb_le. intros [H1 H2] [L1 L2].
  set (cp := 65536 + (hi - 55296) * 1024 + (lo - 56320)).
  assert (Hcp : 65536 <= cp) by (unfold cp; lia).
  unfold quoteCodePoint.
  rewrite (proj2 (N.eqb_neq cp 8)), (proj2 (N.eqb_neq cp 9)),
          (proj2 (N.eqb_neq cp 10)), (proj2 (N.eqb_neq cp 12)),
          (proj2 (N.eqb_neq cp 13)), (proj2 (N.eqb_neq cp 34)),
          (proj2 (N.eqb_neq cp 92)) by lia.
  assert (E1 : (cp <? 32) = false) by (apply N.ltb_ge; lia).
  assert (E2 : isSurrogate cp = false).
  { unfold isSurrogate. apply andb_false_iff. right. apply N.leb_gt. lia. }
  rewrite E1, E2. cbn [orb].
  unfold encodeCodePoint.
  assert (E3 : (cp <? 65536) = false) by (apply N.ltb_ge; lia).
  rewrite E3.
  assert (Ed : (cp - 65536) / 1024 = hi - 55296).
  { unfold cp. replace (65536 + (hi - 55296) * 1024 + (lo - 56320) - 65536)
      with ((lo - 56320) + (hi - 55296) * 1024) by lia.
    rewrite N.div_add by lia. rewrite N.div_small by lia. lia. }
  assert (Em : (cp - 65536) mod 1024 = lo - 56320).
  { unfold cp. replace (65536 + (hi - 55296) * 1024 + (lo - 56320) - 65536)
      with ((lo - 56320) + (hi - 55296) * 1024) by lia.
    rewrite N.Div0.mod_add. apply N.mod_small. lia. }
  rewrite Ed, Em.
  replace (55296 + (hi - 55296)) with hi by lia.
  replace (56320 + (lo - 56320)) with lo by lia.
  cbn [app stringChars].
  rewrite (proj2 (N.eqb_neq hi 34)), (proj2 (N.eqb_neq hi 92)),
          (proj2 (N.eqb_neq lo 34)), (proj2 (N.eqb_neq lo 92)) by lia.
  rewrite (proj2 (N.ltb_ge hi 32)), (proj2 (N.ltb_ge lo 32)) by lia.
  destruct (stringChars t) as [[str rest]|]; reflexivity.
Qed.

(** Quoting, then reading the characters of the string literal, gives
    the string back. *)
Lemma stringChars_quoted s rest :
  isString16 s = true ->
  stringChars (flat_map quoteCodePoint (codePoints s) ++ 34 :: rest) = Some (s, rest).
Proof.
  remember (List.length s) as n eqn:Hn.
  assert (Hle : (List.length s <= n)%nat) by lia. clear Hn.
  revert s Hle. induction n as [|n IH]; intros [|hi t] Hle Hs;
    try reflexivity; try (simpl in Hle; lia).
  unfold isString16 in Hs. cbn [forallb] in Hs.
  apply andb_true_iff in Hs as [Hhi Ht]. apply N.ltb_lt in Hhi.
  cbn [codePoints].
  destruct t as [|lo t'].
  - cbn [flat_map app]. rewrite app_nil_r.
    rewrite (stringChars_quoteUnit hi _ Hhi). reflexivity.
  - destruct (isHighSurrogate hi && isLowSurrogate lo) eqn:E.
    + apply andb_true_iff in E as [E1 E2].
      cbn [flat_map]. rewrite <- app_assoc.
      rewrite (stringChars_quotePair hi lo _ E1 E2).
      rewrite IH; [reflexivity | simpl in Hle; lia |].
      cbn [forallb] in Ht. apply andb_true_iff in Ht as [_ Ht]. exact Ht.
    + cbn [flat_map]. rewrite <- app_assoc.
      rewrite (stringChars_quoteUnit hi _ Hhi).
      change (flat_map quoteCodePoint (codePoints (lo :: t')) ++ 34 :: rest)
        with (flat_map quoteCodePoint (codePoints (lo :: t')) ++ 34 :: rest).
      rewrite IH; [reflexivity | simpl in Hle |- *; lia | exact Ht].
Qed.

(** An object with one string property, once its two strings are read. *)
Lemma parseValue_singleton fuel key qv v rest :
  stringChars (key ++ 34 :: 58 :: 34 :: qv ++ 34 :: 125 :: rest) =
    Some (key, 58 :: 34 :: qv ++ 34 :: 125 :: rest) ->
  stringChars (qv ++ 34 :: 125 :: rest) = Some (v, 125 :: rest) ->
  parseValue (S (S (S fuel))) (123 :: 34 :: key ++ 34 :: 58 :: 34 :: qv ++ 34 :: 125 :: rest) =
  Parsed (JObj [(key, JStr v)]) rest.
Proof.
  intros Hk Hv.
  cbn [parseValue N.eqb Pos.eqb skipSpace dropWhile isJsonSpace orb].
  cbn [parseMembers N.eqb Pos.eqb].
  rewrite Hk.
  cbn [skipSpace dropWhile isJsonSpace N.eqb Pos.eqb orb parseValue].
  rewrite Hv. reflexivity.
Qed.

Lemma stringifyQuery_shape message :
  stringifyQuery message =
  123 :: 34 :: lit "query" ++ 34 :: 58 :: 34 ::
    flat_map quoteCodePoint (codePoints message) ++ 34 :: 125 :: [].
Proof.
  unfold stringifyQuery, QuoteJSONString.
  change (flat_map quoteCodePoint (codePoints (lit "query"))) with (lit "query").
  cbn [app]. do 2 f_equal. rewrite <- !app_assoc. reflexivity.
Qed.

(** The body the chat interface sends parses back to the object with
    the one property query, whose value is the message. *)
Lemma JSON_parse_stringifyQuery message :
  isString16 message = true ->
  JSON_parse (stringifyQuery message) = Some (JObj [(lit "query", JStr message)]).
Proof.
  intros Hm. unfold JSON_parse.
  assert (Hf : exists fuel, fuelFor (stringifyQuery message) = S (S (S fuel))).
  { exists (fuelFor (stringifyQuery message) - 3)%nat.
    unfold fuelFor. rewrite stringifyQuery_shape. cbn [List.length]. lia. }
  destruct Hf as [fuel ->].
  rewrite stringifyQuery_shape.
  change (skipSpace (123 :: ?x)) with (123 :: x).
  rewrite (parseValue_singleton fuel (lit "query") _ message []).
  - reflexivity.
  - reflexivity.
  - apply stringChars_quoted. exact Hm.
Qed.

End StringifyFacts.

(** ** Further facts about the pipeline *)

Module PipelineFacts.
Import JsString JsNumber Json Completion External Pipeline Fixtures Shapes.
Import JsStringFacts TrimFacts SynthesizerFacts.

(** The entry point returns one of five records, or raises. *)
Lemma askQuestion_cases upperTable svc query :
  (exists r,
      askQuestion upperTable svc query = Normal r /\
      (r = handleTechnicalNoDocs \/ r = handleBilling \/ r = handleIrrelevant \/
       (exists msg, thrownInTry upperTable svc query (ThrownValue msg) /\
                    r = errorResponse (ThrownValue msg)) \/
       exists a c s d, truthy a = true /\ r = technicalWithDocs a c s d)) \/
  (exists e te,
      thrownInTry upperTable svc query e /\ isNullish e = true /\
      getMessage e = Throw te /\
      askQuestion upperTable svc query = Throw te).
Proof.
  destruct (PipelineSpec.askQuestion_try upperTable svc query)
    as [(e & He) | (context & queryType & H1 & H2)].
  - rewrite (PipelineSpec.askQuestion_thrown _ _ _ _ He).
    destruct e as [| | msg].
    + right. exists ThrownUndefined. eexists.
      split; [exact He|]. split; [reflexivity|]. split; reflexivity.
    + right. exists ThrownNull. eexists.
      split; [exact He|]. split; [reflexivity|]. split; reflexivity.
    + left. eexists. split; [reflexivity|]. do 3 right. left.
      exists msg. split; [exact He | reflexivity].
  - left. rewrite (PipelineSpec.askQuestion_not_thrown _ _ _ _ _ H1 H2).
    destruct (handleQuery_cases svc query queryType context)
      as [H | [H | [H | (a & c & s & d & Ht & H)]]]; rewrite H;
      eexists; (split; [reflexivity|]).
    + left; reflexivity.
    + right; left; reflexivity.
    + right; right; left; reflexivity.
    + do 4 right. exists a, c, s, d. split; [exact Ht | reflexivity].
Qed.

Lemma handleQuery_Normal svc query queryType context :
  exists r, handleQuery svc query queryType context = Normal r.
Proof.
  destruct (handleQuery_tagged svc query queryType context) as (r & _ & H & _).
  exists r. exact H.
Qed.

(** With the gate's verdict known, what the entry point computes. *)
Lemma askQuestion_gate_yes upperTable svc query context :
  getRelevantDocuments svc query = Normal context ->
  checkDocumentRelevance upperTable svc query context = Normal true ->
  askQuestion upperTable svc query = handleTechnicalWithDocs svc query context.
Proof.
  intros Hc Hg.
  rewrite (PipelineSpec.askQuestion_not_thrown upperTable svc query context
             (lit "TECHNICAL_WITH_DOCS") Hc).
  - unfold handleQuery. rewrite eqb_refl. reflexivity.
  - unfold classifyQuery. rewrite Hg. reflexivity.
Qed.

Lemma askQuestion_gate_no upperTable svc query context reply :
  getRelevantDocuments svc query = Normal context ->
  checkDocumentRelevance upperTable svc query context = Normal false ->
  classificationChain_invoke svc query = Normal reply ->
  askQuestion upperTable svc query =
  handleQuery svc query (toUpperCase upperTable (trim reply)) context.
Proof.
  intros Hc Hg Hr.
  apply (PipelineSpec.askQuestion_not_thrown upperTable svc query context _ Hc).
  unfold classifyQuery. rewrite Hg. cbn [bind ret]. rewrite Hr. reflexivity.
Qed.

(** *** toUpperCase on the replies models give *)

Lemma codePoints_ascii s : isAscii s = true -> codePoints s = s.
Proof.
  induction s as [|hi t IH]; [reflexivity|].
  unfold isAscii. cbn [forallb]. rewrite andb_true_iff. intros [Hh Ht].
  cbn [codePoints]. destruct t as [|lo t']; [reflexivity|].
  assert (E : isHighSurrogate hi = false).
  { unfold isHighSurrogate. apply andb_false_iff. left.
    apply N.leb_gt. apply N.ltb_lt in Hh. lia. }
  rewrite E. cbn [andb]. f_equal. exact (IH Ht).
Qed.

(** On ASCII text upper-casing is code unit by code unit, whatever the
    table says above ASCII. *)
Lemma toUpperCase_ascii upperTable s :
  isAscii s = true -> toUpperCase upperTable s = map asciiUpper s.
Proof.
  intros H. unfold toUpperCase. rewrite (codePoints_ascii s H).
  induction s as [|c s IH]; [reflexivity|].
  unfold isAscii in H. cbn [forallb] in H. apply andb_true_iff in H as [Hc Hs].
  cbn [flat_map map]. rewrite (IH Hs). 
  unfold upperCodePoint. rewrite Hc. unfold asciiUpper.
  apply N.ltb_lt in Hc.
  destruct ((97 <=? c) && (c <=? 122)) eqn:E; cbn [flat_map app].
  - unfold encodeCodePoint.
    assert (E2 : (c - 32 <? 65536) = true) by (apply N.ltb_lt; lia).
    rewrite E2. reflexivity.
  - unfold encodeCodePoint.
    assert (E2 : (c <? 65536) = true) by (apply N.ltb_lt; lia).
    rewrite E2. reflexivity.
Qed.

End PipelineFacts.

(** ** Further properties of the pipeline *)

Module PipelineExtra.
Import JsString JsNumber Json Completion External Pipeline Fixtures Shapes.
Import JsStringFacts TrimFacts SynthesizerFacts PipelineFacts.

(** X1: [askQuestion] raises when its try block throws undefined or
    null; in every other case the record it returns has exactly the
    properties of one of five shapes, in the order of the source: the
    synthesizer's record (with its confidence and sourcesUsed numbers and
    its relevantDocs an array), the three static responses, or the error
    payload, whose error is what the thrown value's message holds
    (undefined when it has none). *)
Theorem askQuestion_response_shape
        (upperTable : N -> list N) (svc : Services) (query : jsstring) :
  (exists r,
    askQuestion upperTable svc query = Normal r /\
    ((field "type" r = Some (JStr (lit "TECHNICAL_WITH_DOCS")) /\
      keys r = [lit "type"; lit "priority"; lit "responseTime"; lit "answer";
                lit "confidence"; lit "sourcesUsed"; lit "relevantDocs"] /\
      isStr (field "priority" r) = true /\ isStr (field "responseTime" r) = true /\
      isNumber (field "confidence" r) = true /\
      isNumber (field "sourcesUsed" r) = true /\
      isArray (field "relevantDocs" r) = true) \/
     (field "type" r = Some (JStr (lit "TECHNICAL_NO_DOCS")) /\
      keys r = [lit "type"; lit "message"; lit "contactInfo"; lit "ticketPriority"] /\
      option_map keys (field "contactInfo" r) =
        Some [lit "email"; lit "phone"; lit "supportHours"]) \/
     (field "type" r = Some (JStr (lit "BILLING")) /\
      keys r = [lit "type"; lit "message"; lit "contactInfo"; lit "securityNote"] /\
      option_map keys (field "contactInfo" r) =
        Some [lit "email"; lit "phone"; lit "hours"]) \/
     (field "type" r = Some (JStr (lit "IRRELEVANT")) /\
      keys r = [lit "type"; lit "message"; lit "suggestion"; lit "availableCategories"] /\
      isArray (field "availableCategories" r) = true) \/
     (field "type" r = Some (JStr (lit "ERROR")) /\
      keys r = [lit "type"; lit "message"; lit "error"] /\
      isStr (field "message" r) = true /\
      exists msg, thrownInTry upperTable svc query (ThrownValue msg) /\
                  field "error" r = Some msg))) \/
  (exists e te,
      thrownInTry upperTable svc query e /\ isNullish e = true /\
      getMessage e = Throw te /\
      askQuestion upperTable svc query = Throw te).
Proof.
  destruct (askQuestion_cases upperTable svc query)
    as [(r & Hr & [-> | [-> | [-> | [(msg & He & ->) | (a & c & s & d & _ & ->)]]]]) | H];
    [| | | | | right; exact H]; left; eexists; (split; [exact Hr|]).
  - right; left. repeat split.
  - right; right; left. repeat split.
  - right; right; right; left. repeat split.
  - right; right; right; right. repeat split.
    exists msg. split; [exact He | reflexivity].
  - left. repeat split.
Qed.

(** X2: when the relevance gate answers YES the classification chain
    has no part in the result: with any other chain in its place the
    pipeline returns the same record, that of the synthesizer. *)
Theorem gate_yes_bypasses_classifier
        (upperTable : N -> list N) (svc : Services) (query context : jsstring)
        (chain : jsstring -> completion jsstring)
        (Hctx : getRelevantDocuments svc query = Normal context)
        (Hgate : checkDocumentRelevance upperTable svc query context = Normal true) :
  askQuestion upperTable (withClassificationChain svc chain) query =
  askQuestion upperTable svc query /\
  askQuestion upperTable svc query = handleTechnicalWithDocs svc query context.
Proof.
  split; [|exact (askQuestion_gate_yes _ _ _ _ Hctx Hgate)].
  rewrite (askQuestion_gate_yes _ _ _ _ Hctx Hgate).
  rewrite (askQuestion_gate_yes upperTable (withClassificationChain svc chain)
                                query context Hctx Hgate).
  reflexivity.
Qed.

Lemma gate_yes_bypasses_classifier_witness :
  askQuestion asciiOnlyTable
    (withClassificationChain
       (cannedServices [lit "doc"] (Normal (lit "YES")) (Normal (lit "BILLING"))
                       (Normal (litq "{'answer':'x'}")))
       (fun _ => Throw (mkError (lit "503 Service Unavailable"))))
    (lit "q") =
  askQuestion asciiOnlyTable
    (cannedServices [lit "doc"] (Normal (lit "YES")) (Normal (lit "BILLING"))
                    (Normal (litq "{'answer':'x'}")))
    (lit "q").
Proof.
  apply (gate_yes_bypasses_classifier asciiOnlyTable
    (cannedServices [lit "doc"] (Normal (lit "YES")) (Normal (lit "BILLING"))
                    (Normal (litq "{'answer':'x'}")))
    (lit "q") (lit "doc") (fun _ => Throw (mkError (lit "503 Service Unavailable")))
    eq_refl eq_refl).
Defined.

(** X3: when the gate answers NO and the classifier's token is not
    TECHNICAL_WITH_DOCS, the pipeline returns one of the three static
    responses and the synthesizer's model has no part in it: with any
    other model in its place the result is the same. *)
Theorem gate_no_returns_static_response
        (upperTable : N -> list N) (svc : Services) (query context reply : jsstring)
        (model : list ChatMessage -> completion jsstring)
        (Hctx : getRelevantDocuments svc query = Normal context)
        (Hgate : checkDocumentRelevance upperTable svc query context = Normal false)
        (Hreply : classificationChain_invoke svc query = Normal reply)
        (Htoken : toUpperCase upperTable (trim reply) <> lit "TECHNICAL_WITH_DOCS") :
  (askQuestion upperTable svc query = Normal handleTechnicalNoDocs \/
   askQuestion upperTable svc query = Normal handleBilling \/
   askQuestion upperTable svc query = Normal handleIrrelevant) /\
  askQuestion upperTable (withModel svc model) query = askQuestion upperTable svc query.
Proof.
  rewrite (askQuestion_gate_no _ _ _ _ _ Hctx Hgate Hreply).
  rewrite (askQuestion_gate_no upperTable (withModel svc model) query context reply
                               Hctx Hgate Hreply).
  apply eqb_neq in Htoken.
  unfold handleQuery. rewrite Htoken.
  split; [|reflexivity].
  destruct (eqb _ (lit "TECHNICAL_NO_DOCS")); [left; reflexivity|].
  destruct (eqb _ (lit "BILLING")); [right; left; reflexivity|].
  destruct (eqb _ (lit "IRRELEVANT")); right; right; reflexivity.
Qed.

Lemma gate_no_returns_static_response_witness :
  askQuestion asciiOnlyTable
    (withModel
       (cannedServices [] (Normal (lit "NO")) (Normal (lit "billing")) (Normal []))
       (fun _ => Normal (litq "{'answer':'x'}")))
    (lit "Can I get a refund?") =
  askQuestion asciiOnlyTable
    (cannedServices [] (Normal (lit "NO")) (Normal (lit "billing")) (Normal []))
    (lit "Can I get a refund?").
Proof.
  apply (gate_no_returns_static_response asciiOnlyTable
    (cannedServices [] (Normal (lit "NO")) (Normal (lit "billing")) (Normal []))
    (lit "Can I get a refund?") [] (lit "billing")
    (fun _ => Normal (litq "{'answer':'x'}")) eq_refl eq_refl eq_refl).
  vm_compute. intros E. discriminate E.
Defined.

(** X4: the dispatcher does not know who chose the query type: when
    the gate answers NO and the classifier itself replies
    TECHNICAL_WITH_DOCS (in any spelling that trims and upper-cases to
    it), the synthesizer runs on the context the gate set aside, and its
    result is what the pipeline returns. *)
Theorem classifier_token_reaches_synthesizer
        (upperTable : N -> list N) (svc : Services) (query context reply : jsstring)
        (Hctx : getRelevantDocuments svc query = Normal context)
        (Hgate : checkDocumentRelevance upperTable svc query context = Normal false)
        (Hreply : classificationChain_invoke svc query = Normal reply)
        (Htoken : toUpperCase upperTable (trim reply) = lit "TECHNICAL_WITH_DOCS") :
  askQuestion upperTable svc query = handleTechnicalWithDocs svc query context.
Proof.
  rewrite (askQuestion_gate_no _ _ _ _ _ Hctx Hgate Hreply), Htoken.
  reflexivity.
Qed.

Lemma classifier_token_reaches_synthesizer_witness :
  askQuestion asciiOnlyTable
    (cannedServices [lit "doc"] (Normal (lit "NO")) (Normal (lit "technical_with_docs"))
                    (Normal (litq "{'answer':'x'}")))
    (lit "q") =
  Normal (technicalWithDocs (JStr (lit "x")) None None None).
Proof.
  rewrite (classifier_token_reaches_synthesizer asciiOnlyTable
    (cannedServices [lit "doc"] (Normal (lit "NO")) (Normal (lit "technical_with_docs"))
                    (Normal (litq "{'answer':'x'}")))
    (lit "q") (lit "doc") (lit "technical_with_docs") eq_refl eq_refl eq_refl eq_refl).
  reflexivity.
Defined.

(** X5: the gate reads its reply without regard to ASCII case and to
    white space around it: a reply that is yes in any mix of cases,
    with any white space before and after, gives true. *)
Theorem relevance_gate_ignores_case_and_padding
        (upperTable : N -> list N) (svc : Services)
        (query context before core after : jsstring)
        (Hreply : relevanceChain_invoke svc query context =
                  Normal (padded before core after))
        (Hbefore : forallb isWhiteSpace before = true)
        (Hafter : forallb isWhiteSpace after = true)
        (Hascii : isAscii core = true)
        (Hcore : map asciiUpper core = lit "YES") :
  checkDocumentRelevance upperTable svc query context = Normal true.
Proof.
  unfold checkDocumentRelevance. rewrite Hreply. cbn [bind ret].
  assert (Hs : startsSolid core = true /\ startsSolid (rev core) = true).
  { destruct core as [|y [|e [|s [|x core]]]]; try discriminate Hcore.
    cbn [map] in Hcore. injection Hcore as Hy He Hs.
    unfold isAscii in Hascii. cbn [forallb] in Hascii.
    rewrite !andb_true_iff, !N.ltb_lt in Hascii.
    destruct Hascii as (Ay & Ae & As & _).
    assert (Ys : y = 89 \/ y = 121).
    { unfold asciiUpper in Hy.
      destruct ((97 <=? y) && (y <=? 122)) eqn:E; [right | left; exact Hy].
      apply andb_true_iff in E as [E1 E2]. apply N.leb_le in E1. lia. }
    assert (Ss : s = 83 \/ s = 115).
    { unfold asciiUpper in Hs.
      destruct ((97 <=? s) && (s <=? 122)) eqn:E; [right | left; exact Hs].
      apply andb_true_iff in E as [E1 E2]. apply N.leb_le in E1. lia. }
    destruct Ys as [-> | ->], Ss as [-> | ->]; split; reflexivity. }
  destruct Hs as [Hs1 Hs2].
  rewrite (trim_padded _ _ _ Hbefore Hafter Hs1 Hs2).
  rewrite (toUpperCase_ascii _ _ Hascii), Hcore. reflexivity.
Qed.

Lemma relevance_gate_ignores_case_and_padding_witness :
  checkDocumentRelevance asciiOnlyTable
    (cannedServices [] (Normal (padded [32; 10] (lit "Yes") [13; 10; 9])) (Normal []) (Normal []))
    (lit "q") [] = Normal true.
Proof.
  apply (relevance_gate_ignores_case_and_padding asciiOnlyTable
    (cannedServices [] (Normal (padded [32; 10] (lit "Yes") [13; 10; 9])) (Normal []) (Normal []))
    (lit "q") [] [32; 10] (lit "Yes") [13; 10; 9]); reflexivity.
Defined.

(** X6: so does the dispatch on the classifier's reply: when the gate
    answers NO, a reply that spells BILLING, TECHNICAL_NO_DOCS or
    IRRELEVANT in any mix of ASCII cases, with any white space around it,
    gets the static response of that category. *)
Theorem classifier_reply_ignores_case_and_padding
        (upperTable : N -> list N) (svc : Services)
        (query context before core after : jsstring)
        (Hctx : getRelevantDocuments svc query = Normal context)
        (Hgate : checkDocumentRelevance upperTable svc query context = Normal false)
        (Hreply : classificationChain_invoke svc query =
                  Normal (padded before core after))
        (Hbefore : forallb isWhiteSpace before = true)
        (Hafter : forallb isWhiteSpace after = true)
        (Hascii : isAscii core = true)
        (Hsolid : startsSolid core = true /\ startsSolid (rev core) = true) :
  classifyQuery upperTable svc query context = Normal (map asciiUpper core) /\
  (map asciiUpper core = lit "BILLING" ->
   askQuestion upperTable svc query = Normal handleBilling) /\
  (map asciiUpper core = lit "TECHNICAL_NO_DOCS" ->
   askQuestion upperTable svc query = Normal handleTechnicalNoDocs) /\
  (map asciiUpper core = lit "IRRELEVANT" ->
   askQuestion upperTable svc query = Normal handleIrrelevant).
Proof.
  destruct Hsolid as [Hs1 Hs2].
  assert (Ht : toUpperCase upperTable (trim (padded before core after)) =
               map asciiUpper core).
  { rewrite (trim_padded _ _ _ Hbefore Hafter Hs1 Hs2).
    apply toUpperCase_ascii. exact Hascii. }
  rewrite (askQuestion_gate_no _ _ _ _ _ Hctx Hgate Hreply), Ht.
  split.
  { unfold classifyQuery. rewrite Hgate. cbn [bind ret]. rewrite Hreply.
    cbn [bind ret]. rewrite Ht. reflexivity. }
  repeat split; intros ->; reflexivity.
Qed.

Lemma classifier_reply_ignores_case_and_padding_witness :
  askQuestion asciiOnlyTable
    (cannedServices [] (Normal (lit "NO"))
                    (Normal (padded [32] (lit "Billing") [10])) (Normal []))
    (lit "Can I get a refund?") = Normal handleBilling.
Proof.
  apply (classifier_reply_ignores_case_and_padding asciiOnlyTable
    (cannedServices [] (Normal (lit "NO"))
                    (Normal (padded [32] (lit "Billing") [10])) (Normal []))
    (lit "Can I get a refund?") [] [32] (lit "Billing") [10]
    eq_refl eq_refl eq_refl eq_refl eq_refl eq_refl (conj eq_refl eq_refl)).
  reflexivity.
Defined.

(** X16: the dispatcher kept in rag.js and the one of
    responseService.js.  On the three static query types they return the
    same record; on TECHNICAL_WITH_DOCS they return the same synthesized
    record or each its own fallback; on any other query type the copy in
    rag.js returns undefined where responseService.js returns the
    IRRELEVANT response. *)
Theorem ragHandleQuery_compared
        (svc : Services) (query queryType context : jsstring) :
  (In queryType [lit "TECHNICAL_NO_DOCS"; lit "BILLING"; lit "IRRELEVANT"] ->
   exists r,
     handleQuery svc query queryType context = Normal r /\
     ragHandleQuery svc query queryType context = Normal (Some r)) /\
  (queryType = lit "TECHNICAL_WITH_DOCS" ->
   (exists r,
       field "type" r = Some (JStr (lit "TECHNICAL_WITH_DOCS")) /\
       handleQuery svc query queryType context = Normal r /\
       ragHandleQuery svc query queryType context = Normal (Some r)) \/
   (handleQuery svc query queryType context = Normal handleTechnicalNoDocs /\
    ragHandleQuery svc query queryType context = Normal (Some ragFallback))) /\
  (~ In queryType [lit "TECHNICAL_WITH_DOCS"; lit "TECHNICAL_NO_DOCS";
                   lit "BILLING"; lit "IRRELEVANT"] ->
   handleQuery svc query queryType context = Normal handleIrrelevant /\
   ragHandleQuery svc query queryType context = Normal None).
Proof.
  split; [|split].
  - intros [<- | [<- | [<- | []]]]; eexists; split; reflexivity.
  - intros ->. unfold handleQuery, ragHandleQuery, handleTechnicalWithDocs.
    rewrite eqb_refl.
    destruct (model_invoke svc _) as [reply|e]; cbn [bind tryCatch ret];
      [|right; split; reflexivity].
    destruct (parseResponse reply) as [p|e]; cbn [bind tryCatch ret];
      [|right; split; reflexivity].
    destruct (buildResponse p) as [r|e] eqn:Hb; cbn [bind tryCatch ret];
      [|right; split; reflexivity].
    left. exists r. repeat split.
    apply buildResponse_Normal in Hb as (props & a & _ & _ & _ & ->). reflexivity.
  - intros Hn. unfold handleQuery, ragHandleQuery.
    destruct (eqb queryType (lit "TECHNICAL_WITH_DOCS")) eqn:E1.
    { apply eqb_eq in E1. exfalso. apply Hn. rewrite E1. cbn -[lit]. tauto. }
    destruct (eqb queryType (lit "TECHNICAL_NO_DOCS")) eqn:E2.
    { apply eqb_eq in E2. exfalso. apply Hn. rewrite E2. cbn -[lit]. tauto. }
    destruct (eqb queryType (lit "BILLING")) eqn:E3.
    { apply eqb_eq in E3. exfalso. apply Hn. rewrite E3. cbn -[lit]. tauto. }
    destruct (eqb queryType (lit "IRRELEVANT")) eqn:E4.
    { apply eqb_eq in E4. exfalso. apply Hn. rewrite E4. cbn -[lit]. tauto. }
    split; reflexivity.
Qed.

Lemma ragHandleQuery_compared_witness :
  handleQuery (cannedServices [] (Normal []) (Normal []) (Normal []))
              (lit "q") (lit "PRODUCT") [] = Normal handleIrrelevant /\
  ragHandleQuery (cannedServices [] (Normal []) (Normal []) (Normal []))
                 (lit "q") (lit "PRODUCT") [] = Normal None.
Proof.
  apply (proj2 (proj2 (ragHandleQuery_compared
           (cannedServices [] (Normal []) (Normal []) (Normal []))
           (lit "q") (lit "PRODUCT") []))).
  vm_compute. intros [E | [E | [E | [E | []]]]]; discriminate E.
Defined.

End PipelineExtra.

(** ** The text the repair parse reads *)

Module CleanupExtra.
Import JsString Json Completion External Pipeline Fixtures Shapes.
Import JsStringFacts CleanupFacts QuotedKeyFacts TrimFacts PipelineFacts.

(** X7: whatever the reply, the text the second parse attempt reads is
    on one line, has no curly double quote, no white space but single
    plain spaces, and none at either end. *)
Theorem cleaned_normal_form (content : jsstring) :
  forallb (fun c => negb (isLineBreak c) && negb (isSmartQuote c)) (cleaned content) = true /\
  singleSpaced (cleaned content) = true /\
  trimmed (cleaned content) = true.
Proof.
  rewrite repair_cleanup_refines. unfold cleanupSpec.
  set (s1 := filter notLineBreak (map plainQuote (removeMarkdown content))).
  assert (H1 : forallb (fun c => negb (isSmartQuote c)) s1 = true).
  { unfold s1. apply forallb_filter.
    apply forallb_forall. intros c Hc. apply in_map_iff in Hc as (d & <- & _).
    rewrite plainQuote_notSmart. reflexivity. }
  assert (H2 : forallb cleanChar (trim (collapseSpaces false s1)) = true).
  { apply trim_preserves. apply collapseSpaces_cleanChar. exact H1. }
  split; [|split].
  - apply forallb_forall. intros c Hc.
    rewrite forallb_forall in H2. specialize (H2 c Hc).
    destruct (cleanChar_spec c H2) as (E1 & E2 & _). rewrite E1, E2. reflexivity.
  - apply trim_singleSpaced. exact (proj1 (collapseSpaces_spacing false s1)).
  - apply trim_trimmed.
Qed.

End CleanupExtra.

(** ** The query endpoint *)

Module ServerExtra.
Import JsString Json Completion External Pipeline Fixtures Shapes JsonStringify Server.
Import JsStringFacts SynthesizerFacts PipelineFacts StringifyFacts.

(** What [askQuestion] raises is the TypeError of its catch block. *)
Lemma askQuestion_raises upperTable svc q te :
  askQuestion upperTable svc q = Throw te ->
  exists e,
    thrownInTry upperTable svc q e /\ isNullish e = true /\
    getMessage e = Throw te /\
    (te = mkError (lit "Cannot read properties of undefined (reading 'message')") \/
     te = mkError (lit "Cannot read properties of null (reading 'message')")).
Proof.
  intros H.
  destruct (askQuestion_cases upperTable svc q)
    as [(r & Hr & _) | (e & te' & He & Hn & Hg & Hq)]; [congruence|].
  assert (te' = te) by congruence. subst te'.
  exists e. split; [exact He|]. split; [exact Hn|]. split; [exact Hg|].
  destruct e as [| | msg]; [left | right | discriminate Hn];
    cbn in Hg; injection Hg as <-; reflexivity.
Qed.

(** A request whose query is a non-empty string reaches the pipeline. *)
Lemma postQuery_accepts upperTable svc body q :
  destructureQuery body = Normal (Some (JStr q)) -> q <> [] ->
  postQuery upperTable svc body =
  match askQuestion upperTable svc q with
  | Normal r => Normal (mkHttp 200 (serialized r))
  | Throw te => Normal (mkHttp 500 (internalServerError te))
  end.
Proof.
  intros Hd Hq. unfold postQuery. rewrite Hd. cbn [bind].
  destruct q as [|c q]; [contradiction|].
  cbn [truthyOpt truthy isStringValue negb orb].
  destruct (askQuestion upperTable svc (c :: q)) as [r|te] eqn:Ha;
    cbn [bind tryCatch ret]; [reflexivity|].
  destruct (askQuestion_raises _ _ _ _ Ha) as (e & _ & _ & _ & [-> | ->]); reflexivity.
Qed.

(** X8: the endpoint always answers, with one of three statuses.  When
    the request has no body to destructure (undefined or null) it answers
    500.  When the body's query is a non-empty string it answers 200 with
    the record of [askQuestion] for that query, as JSON carries it - or,
    when [askQuestion] raised, which it does exactly when its try block
    threw undefined or null, 500 with the TypeError's message.  In every
    other case it answers 400 with the fixed 'Invalid request' body,
    whatever the services would have done. *)
Theorem postQuery_status
        (upperTable : N -> list N) (svc : Services) (body : option value) :
  exists h,
    postQuery upperTable svc body = Normal h /\
    (((body = None \/ body = Some JUndefined \/ body = Some JNull) /\
      status h = 500 /\
      field "error" (payload h) = Some (JStr (lit "Internal server error")) /\
      isStr (field "message" (payload h)) = true) \/
     (exists q,
         destructureQuery body = Normal (Some (JStr q)) /\ q <> [] /\
         ((exists r, askQuestion upperTable svc q = Normal r /\
                     h = mkHttp 200 (serialized r)) \/
          (exists e te,
              thrownInTry upperTable svc q e /\ isNullish e = true /\
              askQuestion upperTable svc q = Throw te /\
              h = mkHttp 500 (internalServerError te) /\
              field "error" (payload h) = Some (JStr (lit "Internal server error")) /\
              isStr (field "message" (payload h)) = true))) \/
     (h = mkHttp 400 invalidRequest /\
      exists v, destructureQuery body = Normal v /\
                forall q, v = Some (JStr q) -> q = [])).
Proof.
  destruct (destructureQuery body) as [v|e] eqn:Hd.
  - assert (H400 : (forall q, v = Some (JStr q) -> q = []) ->
                    postQuery upperTable svc body = Normal (mkHttp 400 invalidRequest)).
    { intros Hv. unfold postQuery. rewrite Hd. cbn [bind].
      destruct v as [[| b | x | [|c q] | items | props |]|];
        cbn [truthyOpt truthy isStringValue negb];
        rewrite ?orb_true_r; try reflexivity.
      discriminate (Hv (c :: q) eq_refl). }
    destruct v as [[| b | x | [|c q] | items | props |]|].
    5:{ pose proof (postQuery_accepts upperTable svc body (c :: q) Hd) as Hp.
        destruct (askQuestion upperTable svc (c :: q)) as [r|te] eqn:Ha.
        - exists (mkHttp 200 (serialized r)). split; [apply Hp; discriminate|].
          right; left. exists (c :: q). split; [reflexivity|]. split; [discriminate|].
          left. exists r. split; [exact Ha | reflexivity].
        - exists (mkHttp 500 (internalServerError te)). split; [apply Hp; discriminate|].
          right; left. exists (c :: q). split; [reflexivity|]. split; [discriminate|].
          right. destruct (askQuestion_raises _ _ _ _ Ha) as (e & He & Hn & _ & Hte).
          exists e, te. split; [exact He|]. split; [exact Hn|]. split; [exact Ha|].
          split; [reflexivity|].
          destruct Hte as [-> | ->]; split; reflexivity. }
    all: match type of Hd with
         | _ = Normal ?v =>
             assert (Hv : forall q, v = Some (JStr q) -> q = [])
               by (intros q' E; try discriminate E; injection E as <-; reflexivity)
         end.
    all: exists (mkHttp 400 invalidRequest); (split; [exact (H400 Hv)|]);
         right; right; (split; [reflexivity|]); eexists; (split; [reflexivity | exact Hv]).
  - assert (Hb : (body = None \/ body = Some JUndefined \/ body = Some JNull) /\
                 exists m, e = mkError m).
    { destruct body as [[| b | x | s | items | props |]|]; try discriminate Hd;
        cbn in Hd; injection Hd as <-; (split; [tauto | eexists; reflexivity]). }
    destruct Hb as (Hb & m & ->).
    exists (mkHttp 500 (internalServerError (mkError m))).
    split; [unfold postQuery; rewrite Hd; reflexivity|].
    left. split; [exact Hb|]. repeat split.
Qed.

(** X9: what the endpoint answers when the vector store throws for a
    well-formed request.  A thrown value that has properties does not
    reach the handler's catch block: the answer has status 200 and the
    ERROR payload as JSON carries it - with the message of an Error
    object under error, and with no error property at all when the value
    thrown has no message.  When the store throws undefined or null,
    [askQuestion] raises and the endpoint answers 500. *)
Theorem postQuery_pipeline_failure
        (upperTable : N -> list N) (svc : Services) (q : jsstring) (e : Error)
        (Hq : q <> [])
        (Hfail : getRelevantDocuments svc q = Throw e) :
  let answer := postQuery upperTable svc (Some (JObj [(lit "query", JStr q)])) in
  (isNullish e = false -> answer = Normal (mkHttp 200 (serialized (errorResponse e)))) /\
  (forall m, e = mkError m -> answer = Normal (mkHttp 200 (errorResponse e))) /\
  (e = ThrownValue JUndefined ->
   exists r, answer = Normal (mkHttp 200 r) /\ keys r = [lit "type"; lit "message"]) /\
  (isNullish e = true ->
   exists te, getMessage e = Throw te /\
              answer = Normal (mkHttp 500 (internalServerError te))).
Proof.
  intros answer. subst answer.
  rewrite (postQuery_accepts upperTable svc (Some (JObj [(lit "query", JStr q)])) q
             eq_refl Hq).
  rewrite (PipelineSpec.askQuestion_thrown upperTable svc q e (or_introl Hfail)).
  split; [|split; [|split]].
  - intros Hn. destruct e as [| | msg]; try discriminate Hn. reflexivity.
  - intros m ->. reflexivity.
  - intros ->. eexists. split; reflexivity.
  - intros Hn. destruct e as [| | msg]; try discriminate Hn;
      eexists; split; reflexivity.
Qed.

Lemma postQuery_pipeline_failure_witness :
  postQuery asciiOnlyTable (unreachableStore (mkError (lit "connect ECONNREFUSED")))
            (Some (JObj [(lit "query", JStr (lit "hello"))])) =
    Normal (mkHttp 200 (errorResponse (mkError (lit "connect ECONNREFUSED")))) /\
  exists te,
    getMessage ThrownUndefined = Throw te /\
    postQuery asciiOnlyTable (unreachableStore ThrownUndefined)
              (Some (JObj [(lit "query", JStr (lit "hello"))])) =
      Normal (mkHttp 500 (internalServerError te)).
Proof.
  split.
  - apply (postQuery_pipeline_failure asciiOnlyTable
             (unreachableStore (mkError (lit "connect ECONNREFUSED")))
             (lit "hello") (mkError (lit "connect ECONNREFUSED")));
      [discriminate | reflexivity | reflexivity].
  - apply (postQuery_pipeline_failure asciiOnlyTable
             (unreachableStore ThrownUndefined) (lit "hello") ThrownUndefined);
      [discriminate | reflexivity | reflexivity].
Defined.

(** X10: the body the chat interface sends for a message, read by
    JSON.parse, is the object whose one property query is that message:
    quotes, reverse solidi, control characters and unpaired surrogates
    come back as they were typed. *)
Theorem request_body_round_trip (message : jsstring)
        (Hm : isString16 message = true) :
  JSON_parse (stringifyQuery message) = Some (JObj [(lit "query", JStr message)]).
Proof. exact (JSON_parse_stringifyQuery message Hm). Qed.

Lemma request_body_round_trip_witness :
  JSON_parse (stringifyQuery ([34; 92; 10; 1; 55357; 56832; 56832] ++ lit "a b")) =
  Some (JObj [(lit "query", JStr ([34; 92; 10; 1; 55357; 56832; 56832] ++ lit "a b"))]).
Proof.
  apply (request_body_round_trip ([34; 92; 10; 1; 55357; 56832; 56832] ++ lit "a b")).
  reflexivity.
Defined.

Lemma trim_nonempty s : trim s <> [] -> s <> [].
Proof. intros H ->. apply H. reflexivity. Qed.

(** The body parser hands a body within its limit on as the object with
    the one property query. *)
Lemma expressJson_stringifyQuery message :
  isString16 message = true ->
  utf8Length (stringifyQuery message) <= bodyLimit ->
  expressJson (stringifyQuery message) = Normal (Some (JObj [(lit "query", JStr message)])).
Proof.
  intros Hm Hl. unfold expressJson.
  apply N.ltb_ge in Hl. rewrite Hl.
  pose proof (stringifyQuery_shape message) as Hs.
  pose proof (JSON_parse_stringifyQuery message Hm) as Hp.
  destruct (stringifyQuery message) as [|c t]; [discriminate Hs|].
  injection Hs as -> _.
  change (skipSpace (123 :: t)) with (123 :: t).
  cbn [N.eqb Pos.eqb orb]. rewrite Hp. reflexivity.
Qed.

(** X11: what the server makes of the request the chat interface sends
    for a message that is not blank.  A body within the 100kb limit of
    the body parser passes the parser and the handler's check: the
    endpoint answers with status 200 and the pipeline's record for that
    very message, as JSON carries it (500 when [askQuestion] raised).  A
    longer body is refused by the parser, and the error middleware
    answers with status 500. *)
Theorem chat_request_is_accepted
        (upperTable : N -> list N) (svc : Services) (message : jsstring)
        (Hm : isString16 message = true)
        (Hsent : trim message <> []) :
  let answer := postQueryRequest upperTable svc (stringifyQuery message) in
  (utf8Length (stringifyQuery message) <= bodyLimit ->
   (exists r, askQuestion upperTable svc message = Normal r /\
              answer = Normal (mkHttp 200 (serialized r))) \/
   (exists e te,
       thrownInTry upperTable svc message e /\ isNullish e = true /\
       askQuestion upperTable svc message = Throw te /\
       answer = Normal (mkHttp 500 (internalServerError te)))) /\
  (bodyLimit < utf8Length (stringifyQuery message) ->
   answer = Normal (mkHttp 500 (internalServerError
                                  (mkError (lit "request entity too large"))))).
Proof.
  intros answer. subst answer. unfold postQueryRequest. split.
  - intros Hl. rewrite (expressJson_stringifyQuery message Hm Hl).
    rewrite (postQuery_accepts upperTable svc (Some (JObj [(lit "query", JStr message)]))
               message eq_refl (trim_nonempty _ Hsent)).
    destruct (askQuestion upperTable svc message) as [r|te] eqn:Ha.
    + left. exists r. split; reflexivity.
    + right. destruct (askQuestion_raises _ _ _ _ Ha) as (e & He & Hn & _ & _).
      exists e, te. repeat split; assumption.
  - intros Hl. unfold expressJson. apply N.ltb_lt in Hl. rewrite Hl. reflexivity.
Qed.

Lemma chat_request_is_accepted_witness :
  exists r,
    askQuestion asciiOnlyTable
      (cannedServices [] (Normal (lit "NO")) (Normal (lit "BILLING")) (Normal []))
      (lit " Can I get a refund? ") = Normal r /\
    postQueryRequest asciiOnlyTable
      (cannedServices [] (Normal (lit "NO")) (Normal (lit "BILLING")) (Normal []))
      (stringifyQuery (lit " Can I get a refund? ")) =
    Normal (mkHttp 200 (serialized r)).
Proof.
  destruct (proj1 (chat_request_is_accepted asciiOnlyTable
      (cannedServices [] (Normal (lit "NO")) (Normal (lit "BILLING")) (Normal []))
      (lit " Can I get a refund? ") eq_refl
      ltac:(vm_compute; discriminate)) ltac:(vm_compute; discriminate))
    as [H | (e & te & _ & _ & H & _)].
  - exact H.
  - vm_compute in H. discriminate H.
Defined.

End ServerExtra.

(** ** The chat interface *)

Module ChatExtra.
Import JsString JsNumber Json Completion External Pipeline Fixtures Shapes JsonStringify.
Import Server ChatInterface.
Import JsStringFacts JsonFacts SynthesizerFacts PipelineFacts StringifyFacts.

(** X12: what the chat shows of the pipeline's records, once JSON has
    carried them.  Of the synthesizer's record it shows the answer as
    JSON carries it - or, when the answer is an infinite number, which
    JSON carries as null, the fixed text 'No answer provided' - with the
    record's type, priority, confidence, sourcesUsed and responseTime as
    metadata.  Of every other record - the three static responses and
    the error payload - it shows the fixed text 'No answer provided' in
    place of the record's message, with the type as only metadata. *)
Theorem formatResponse_of_pipeline
        (upperTable : N -> list N) (svc : Services) (query : jsstring) (r : value)
        (Hr : askQuestion upperTable svc query = Normal r) :
  exists shown md,
    formatResponse (serialized r) = Normal (shown, md) /\
    md_type md = field "type" r /\
    ((field "type" r = Some (JStr (lit "TECHNICAL_WITH_DOCS")) /\
      (exists a,
          field "answer" r = Some a /\ truthy a = true /\
          (((forall sign, a <> JNum (S754_infinity sign)) /\ shown = serialized a) \/
           ((exists sign, a = JNum (S754_infinity sign)) /\
            shown = JStr (lit "No answer provided")))) /\
      md_priority md = field "priority" r /\
      md_confidence md = option_map serialized (field "confidence" r) /\
      md_sourcesUsed md = option_map serialized (field "sourcesUsed" r) /\
      md_responseTime md = field "responseTime" r) \/
     (field "type" r <> Some (JStr (lit "TECHNICAL_WITH_DOCS")) /\
      shown = JStr (lit "No answer provided") /\
      isStr (field "message" r) = true /\
      field "message" r <> Some shown /\
      md_priority md = None /\ md_confidence md = None /\
      md_sourcesUsed md = None /\ md_responseTime md = None)).
Proof.
  destruct (askQuestion_cases upperTable svc query)
    as [(r' & Hr' & H) | (e & te & _ & _ & _ & Ht)]; [|congruence].
  assert (r' = r) by congruence. subst r'. clear Hr Hr'.
  destruct H as [-> | [-> | [-> | [(msg & _ & ->) | (a & c & s & d & Ht & ->)]]]].
  1-3: exists (JStr (lit "No answer provided")); eexists;
       (split; [reflexivity|]); (split; [reflexivity|]);
       right; repeat split; intros E; discriminate E.
  - exists (JStr (lit "No answer provided")).
    exists (mkMetadata (Some (JStr (lit "ERROR"))) None None None None).
    split.
    + cbn [errorResponse serialized message].
      destruct (serialized msg); reflexivity.
    + split; [reflexivity|]. right. repeat split; intros E; discriminate E.
  - unfold technicalWithDocs.
    generalize (numberOr c num_0_95) (numberOr s num_1) (arrayOr d).
    intros cn sn docs.
    destruct a as [| [|] | [sa|sa| |sa ma ea] | [|ch t] | items | props |];
      try discriminate Ht;
      destruct cn, sn;
      eexists; eexists; (split; [reflexivity|]); (split; [reflexivity|]);
      left; (split; [reflexivity|]);
      (split; [|repeat split]);
      eexists; (split; [reflexivity|]); (split; [reflexivity|]);
      first [ left; split; [intros sign E; discriminate E | reflexivity]
            | right; split; [eexists; reflexivity | reflexivity] ].
Qed.

Lemma formatResponse_of_pipeline_witness :
  exists shown md,
    formatResponse
      (serialized (technicalWithDocs (JStr (lit "x")) None None None)) =
      Normal (shown, md) /\
    shown = JStr (lit "x") /\
    md_confidence md = Some (JNum num_0_95).
Proof.
  destruct (formatResponse_of_pipeline asciiOnlyTable
              (cannedServices [] (Normal (lit "YES")) (Normal []) (Normal fencedReply))
              (lit "How do I reset it?")
              (technicalWithDocs (JStr (lit "x")) None None None) eq_refl)
    as (shown & md & H & _ & [(_ & (a & Ha & _ & Hs) & _ & Hc & _) | (Hn & _)]).
  - exists shown, md. split; [exact H|]. split; [|exact Hc].
    injection Ha as <-.
    destruct Hs as [(_ & ->) | ((sign & E) & _)]; [reflexivity | discriminate E].
  - exfalso. apply Hn. reflexivity.
Defined.

(** The catch block of [fetchAIResponse] passes the error on. *)
Lemma fetchAIResponse_eq fetch message :
  fetchAIResponse fetch message =
  bind (fetch (stringifyQuery message))
       (fun response =>
          if negb (ok response)
          then throwError (lit "API responded with status: " ++
                           numberToString (reply_status response))
          else json response).
Proof.
  unfold fetchAIResponse.
  destruct (fetch (stringifyQuery message)) as [response|e]; cbn [bind tryCatch];
    [|reflexivity].
  destruct (negb (ok response)); [reflexivity|].
  destruct (json response); reflexivity.
Qed.

(** The state a submit leaves. *)
Lemma handleSubmit_cases (fetch : jsstring -> completion FetchReply) (st : State) :
  (trim (inputValue st) = [] -> handleSubmit fetch st = Normal st) /\
  (trim (inputValue st) <> [] ->
   exists reply,
     handleSubmit fetch st =
       Normal (mkState (messages st ++ [userEntry (inputValue st); reply]) [] false) /\
     sender reply = ai /\
     (reply = errorEntry \/
      exists responseData md,
        fetchAIResponse fetch (inputValue st) = Normal responseData /\
        formatResponse responseData = Normal (text reply, md) /\
        metadata reply = Some md /\ isError reply = false)).
Proof.
  unfold handleSubmit. split.
  - intros ->. reflexivity.
  - intros Hne. destruct (trim (inputValue st)) as [|c t]; [contradiction|].
    destruct (fetchAIResponse fetch (inputValue st)) as [v|e] eqn:Hf; cbn [bind tryCatch ret].
    2:{ exists errorEntry. rewrite <- app_assoc. repeat split. left; reflexivity. }
    destruct (formatResponse v) as [[shown md]|e] eqn:Hfmt; cbn [bind tryCatch ret fst snd].
    2:{ exists errorEntry. rewrite <- app_assoc. repeat split. left; reflexivity. }
    exists (mkEntry shown ai (Some md) false). rewrite <- app_assoc.
    repeat split. right. exists v, md. repeat split. exact Hfmt.
Qed.

Lemma renders_exchange ms u a i l :
  renders (mkState (ms ++ [u; a]) i l) =
  forallb entryRenders ms && (entryRenders u && entryRenders a).
Proof.
  unfold renders. cbn [messages]. rewrite forallb_app. cbn [forallb].
  rewrite andb_true_r. reflexivity.
Qed.

(** X13: a submit on the mounted component.  With blank input (empty or
    white space only) it changes nothing and sends nothing.  Any other
    submit ends, whatever the network does, with exactly two new entries
    - the text as typed, then one entry of the assistant, which is
    either the formatted reply or the fixed error entry - the input
    cleared and the loading flag off; the component then stays on the
    page exactly when the new entry can be drawn: a reply whose answer,
    type, priority, confidence or sourcesUsed is an object makes the
    render throw, and the component is gone. *)
Theorem submit_outcome
        (fetch : jsstring -> completion FetchReply) (st : State) (typed : jsstring)
        (Hst : renders st = true) :
  (trim typed = [] ->
   typeAndSubmit (Mounted st) (typed, fetch) =
     Normal (Mounted (handleInputChange st typed))) /\
  (trim typed <> [] ->
   exists reply,
     sender reply = ai /\
     (reply = errorEntry \/
      exists responseData md,
        fetchAIResponse fetch typed = Normal responseData /\
        formatResponse responseData = Normal (text reply, md) /\
        metadata reply = Some md /\ isError reply = false) /\
     handleSubmit fetch (handleInputChange st typed) =
       Normal (mkState (messages st ++ [userEntry typed; reply]) [] false) /\
     typeAndSubmit (Mounted st) (typed, fetch) =
       Normal (if entryRenders reply
               then Mounted (mkState (messages st ++ [userEntry typed; reply]) [] false)
               else Unmounted)).
Proof.
  destruct (handleSubmit_cases fetch (handleInputChange st typed)) as [Hb Hn].
  cbn [handleInputChange inputValue messages] in Hb, Hn.
  unfold typeAndSubmit. cbn [fst snd]. split.
  - intros E. rewrite (Hb E). cbn [bind ret].
    unfold renders in *. cbn [handleInputChange messages]. rewrite Hst. reflexivity.
  - intros E. destruct (Hn E) as (reply & H & Hs & Hc).
    exists reply. split; [exact Hs|]. split; [exact Hc|]. split; [exact H|].
    rewrite H. cbn [bind ret]. rewrite renders_exchange.
    unfold renders in Hst. rewrite Hst. cbn [andb userEntry entryRenders text metadata renderable]. reflexivity.
Qed.

Lemma submit_outcome_witness :
  typeAndSubmit (Mounted initialState)
    (lit "hello", fun _ => Normal (mkReply 200 (litq "{'type':'BILLING','message':'m'}"))) =
    Normal (Mounted (mkState
      [userEntry (lit "hello");
       mkEntry (JStr (lit "No answer provided")) ai
               (Some (mkMetadata (Some (JStr (lit "BILLING"))) None None None None)) false]
      [] false)) /\
  typeAndSubmit (Mounted initialState)
    (lit "hello", fun _ => Normal (mkReply 200 (litq "{'answer':{'steps':[]}}"))) =
    Normal Unmounted.
Proof.
  split.
  - destruct (proj2 (submit_outcome
        (fun _ => Normal (mkReply 200 (litq "{'type':'BILLING','message':'m'}")))
        initialState (lit "hello") eq_refl) ltac:(vm_compute; discriminate))
      as (reply & _ & _ & H & Ht).
    vm_compute in H. injection H as <-. exact Ht.
  - destruct (proj2 (submit_outcome
        (fun _ => Normal (mkReply 200 (litq "{'answer':{'steps':[]}}")))
        initialState (lit "hello") eq_refl) ltac:(vm_compute; discriminate))
      as (reply & _ & _ & H & Ht).
    vm_compute in H. injection H as <-. exact Ht.
Defined.

(** X14: the chat never shows what a failing server says.  When the
    request fails, when the status is outside 200-299 (the endpoint's 400
    and 500 among them), when the body is not JSON, or when it is the
    JSON null, the entry added is the fixed error entry; in every other
    case the entry is not an error entry. *)
Theorem handleSubmit_failure_entry
        (fetch : jsstring -> completion FetchReply) (st : State)
        (Hsent : trim (inputValue st) <> []) :
  let request := fetch (stringifyQuery (inputValue st)) in
  let failed :=
    match request with
    | Throw _ => true
    | Normal response =>
        negb (ok response) ||
        match JSON_parse (reply_body response) with
        | None | Some JNull => true
        | Some _ => false
        end
    end in
  exists reply,
    handleSubmit fetch st =
      Normal (mkState (messages st ++ [userEntry (inputValue st); reply]) [] false) /\
    (failed = true -> reply = errorEntry) /\
    (failed = false -> isError reply = false /\ metadata reply <> None).
Proof.
  intros request failed. subst request failed.
  unfold handleSubmit.
  destruct (trim (inputValue st)) as [|c t]; [contradiction|].
  rewrite fetchAIResponse_eq.
  assert (Herr : exists reply,
      @Normal State (mkState ((messages st ++ [userEntry (inputValue st)]) ++ [errorEntry])
                             [] false) =
        Normal (mkState (messages st ++ [userEntry (inputValue st); reply]) [] false) /\
      (true = true -> reply = errorEntry) /\
      (true = false -> isError reply = false /\ metadata reply <> None)).
  { exists errorEntry. rewrite <- app_assoc.
    split; [reflexivity|]. split; [reflexivity | discriminate]. }
  destruct (fetch (stringifyQuery (inputValue st))) as [response|e];
    [|exact Herr].
  cbn [bind].
  destruct (ok response); cbn [negb orb]; [|exact Herr].
  unfold json.
  pose proof (JSON_parse_defined (reply_body response)) as Hdef.
  destruct (JSON_parse (reply_body response)) as [v|]; [|exact Herr].
  destruct v as [| b | x | s | items | props |];
    try exact Herr; try (exfalso; apply Hdef; reflexivity);
    (cbn -[lit errorText]; eexists; rewrite <- app_assoc;
     split; [reflexivity|]; split;
     [discriminate | intros _; split; [reflexivity | discriminate]]).
Qed.

Lemma handleSubmit_failure_entry_witness :
  exists reply,
    handleSubmit
      (fun _ => Normal (mkReply 400 (litq "{'error':'Invalid request','message':'Query must be a non-empty string'}")))
      (mkState [] (lit "hello") false) =
    Normal (mkState [userEntry (lit "hello"); reply] [] false) /\
    reply = errorEntry.
Proof.
  destruct (handleSubmit_failure_entry
    (fun _ => Normal (mkReply 400 (litq "{'error':'Invalid request','message':'Query must be a non-empty string'}")))
    (mkState [] (lit "hello") false)) as (reply & H & Hf & _).
  - vm_compute. discriminate.
  - exists reply. split; [exact H | apply Hf; reflexivity].
Defined.

(** *** Sessions *)

Lemma exchanges_app ms u a :
  exchanges ms = true -> sender u = user -> sender a = ai ->
  exchanges (ms ++ [u; a]) = true.
Proof.
  intros H Hu Ha.
  remember (List.length ms) as n eqn:Hn.
  assert (Hle : (List.length ms <= n)%nat) by lia. clear Hn.
  revert ms Hle H. induction n as [|n IH]; intros [|x [|y ms]] Hle H;
    try discriminate H; try (simpl in Hle; lia);
    try (cbn [app exchanges]; rewrite Hu, Ha; reflexivity).
  cbn [app exchanges] in *.
  destruct (sender x); [|discriminate H].
  destruct (sender y); [discriminate H|].
  apply IH; [simpl in Hle; lia | exact H].
Qed.

Lemma session_Unmounted steps : session Unmounted steps = Normal Unmounted.
Proof. induction steps as [|step steps IH]; [reflexivity | exact IH]. Qed.

(** One submit on a component in order: it stays in order, or it is
    gone because the reply could not be drawn. *)
Lemma typeAndSubmit_step st step :
  exchanges (messages st) = true -> isLoading st = false -> renders st = true ->
  (exists st',
      typeAndSubmit (Mounted st) step = Normal (Mounted st') /\
      exchanges (messages st') = true /\ isLoading st' = false /\
      renders st' = true /\
      List.length (messages st') =
        (List.length (messages st) + if isBlank step then 0 else 2)%nat) \/
  (typeAndSubmit (Mounted st) step = Normal Unmounted /\
   isBlank step = false /\
   exists reply,
     handleSubmit (snd step) (handleInputChange st (fst step)) =
       Normal (mkState (messages st ++ [userEntry (fst step); reply]) [] false) /\
     entryRenders reply = false).
Proof.
  intros He Hl Hr. destruct step as [typed fetch].
  destruct (handleSubmit_cases fetch (handleInputChange st typed)) as [Hb Hn].
  cbn [handleInputChange inputValue messages] in Hb, Hn.
  unfold typeAndSubmit, isBlank. cbn [fst snd].
  destruct (trim typed) as [|c t] eqn:E.
  - left. rewrite (Hb eq_refl). cbn [bind ret].
    assert (Hr' : renders (handleInputChange st typed) = true) by exact Hr.
    rewrite Hr'. eexists. split; [reflexivity|].
    cbn [handleInputChange messages isLoading].
    repeat split; [exact He | exact Hl | exact Hr | lia].
  - destruct Hn as (reply & H & Hs & _); [discriminate|].
    rewrite H. cbn [bind ret]. rewrite renders_exchange.
    unfold renders in Hr. rewrite Hr.
    cbn [andb userEntry entryRenders text metadata renderable].
    destruct (entryRenders reply) eqn:Hd.
    + left. eexists. split; [reflexivity|].
      cbn [messages isLoading]. repeat split.
      * apply exchanges_app; [exact He | reflexivity | exact Hs].
      * rewrite renders_exchange, Hr.
        cbn [andb userEntry entryRenders text metadata renderable]. exact Hd.
      * rewrite length_app. reflexivity.
    + right. split; [reflexivity|]. split; [reflexivity|].
      exists reply. split; [reflexivity | exact Hd].
Qed.

(** X15: through any session - any texts typed and submitted one after
    the other, over any network - one of two things holds at the end.
    Either the component is still on the page, and its conversation is
    a sequence of exchanges that can all be drawn: each entry of the
    user is followed by exactly one of the assistant, two entries per
    submit that was not blank, and the loading flag is off.  Or the
    component is gone, and then one of the submits, made on the mounted
    component and not blank, got a reply that could not be drawn. *)
Theorem session_keeps_exchanges
        (steps : list (jsstring * (jsstring -> completion FetchReply))) :
  (exists st,
      session (Mounted initialState) steps = Normal (Mounted st) /\
      exchanges (messages st) = true /\
      isLoading st = false /\
      renders st = true /\
      List.length (messages st) =
        (2 * List.length (filter (fun step => negb (isBlank step)) steps))%nat) \/
  (session (Mounted initialState) steps = Normal Unmounted /\
   exists before step after st reply,
     steps = before ++ step :: after /\
     session (Mounted initialState) before = Normal (Mounted st) /\
     isBlank step = false /\
     handleSubmit (snd step) (handleInputChange st (fst step)) =
       Normal (mkState (messages st ++ [userEntry (fst step); reply]) [] false) /\
     entryRenders reply = false).
Proof.
  assert (H : forall st0,
    exchanges (messages st0) = true -> isLoading st0 = false -> renders st0 = true ->
    (exists st,
        session (Mounted st0) steps = Normal (Mounted st) /\
        exchanges (messages st) = true /\ isLoading st = false /\
        renders st = true /\
        List.length (messages st) =
          (List.length (messages st0) +
           2 * List.length (filter (fun step => negb (isBlank step)) steps))%nat) \/
    (session (Mounted st0) steps = Normal Unmounted /\
     exists before step after st reply,
       steps = before ++ step :: after /\
       session (Mounted st0) before = Normal (Mounted st) /\
       isBlank step = false /\
       handleSubmit (snd step) (handleInputChange st (fst step)) =
         Normal (mkState (messages st ++ [userEntry (fst step); reply]) [] false) /\
       entryRenders reply = false)).
  { induction steps as [|step steps IH]; intros st0 He Hl Hr.
    - left. exists st0. cbn [session ret filter List.length].
      repeat split; [exact He | exact Hl | exact Hr | lia].
    - destruct (typeAndSubmit_step st0 step He Hl Hr)
        as [(st1 & H1 & He1 & Hl1 & Hr1 & Hn1) | (H1 & Hb & reply & Hs & Hd)].
      + destruct (IH st1 He1 Hl1 Hr1)
          as [(st & H2 & He2 & Hl2 & Hr2 & Hn2)
             | (H2 & before & step' & after & st & reply & -> & Hb2 & Hbl & Hs & Hd)].
        * left. exists st. cbn [session]. rewrite H1. cbn [bind].
          repeat split; [exact H2 | exact He2 | exact Hl2 | exact Hr2 |].
          rewrite Hn2, Hn1. cbn [filter].
          destruct (isBlank step); cbn [negb List.length]; lia.
        * right. cbn [session]. rewrite H1. cbn [bind]. split; [exact H2|].
          exists (step :: before), step', after, st, reply.
          split; [reflexivity|]. split.
          { cbn [session]. rewrite H1. cbn [bind]. exact Hb2. }
          repeat split; assumption.
      + right. cbn [session]. rewrite H1. cbn [bind].
        split; [apply session_Unmounted|].
        exists [], step, steps, st0, reply.
        repeat split; assumption. }
  destruct (H initialState eq_refl eq_refl eq_refl)
    as [(st & H1 & H2 & H3 & H4 & H5) | H1].
  - left. exists st. repeat split; assumption.
  - right. exact H1.
Qed.

End ChatExtra.
